(** * manim.utils.tex_file_writing: writing, compiling and converting [.tex] files

    A shallow embedding of [manim/utils/tex_file_writing.py] and the
    properties of its cached TeX -> DVI/XDV/PDF -> SVG pipeline.

    Conventions of the embedding.
    - A Python [str] is a [string]: the sequence of bytes of its UTF-8
      encoding, so [str.encode()] is the byte view of the string.
    - The platform is POSIX: [os.devnull] is [/dev/null], the path separator
      is [/], [pathlib.Path] is [PurePosixPath].
    - The file system is a finite map from path strings to nodes.  Writing a
      file and creating a directory always succeed (no full disk, no
      permission error); [os.makedirs] makes the missing ancestors of a
      directory as well.  The errors of [mkdir] are not modelled: a theorem
      that needs the working directory to be a path, and not the empty
      string, says so.
    - [os.system] is a parameter of the development: an arbitrary function
      from the command line and the file system to a status and a new file
      system.  Every theorem holds for every such function.
    - Functions that have effects or raise live in a state-and-exception
      monad; what an exception leaves behind on disk and in the event list
      stays there, as in Python. *)

From Stdlib Require Import ZArith List Ascii String Lia Bool Sorted.
From stdpp Require Import base option list strings gmap pretty.

Local Open Scope string_scope.

(** ** Python string operations *)

Module Str.

(** The double quote character, and the one-character string of it. *)
Definition dquote_char : ascii := ascii_of_nat 34.
Definition dquote : string := String dquote_char EmptyString.

(** [quoted s] is the f-string ['"{s}"']. *)
Definition quoted (s : string) : string := dquote ++ s ++ dquote.

(** [s.startswith(p)]. *)
Definition startswith (s p : string) : bool := String.prefix p s.

(** [s.endswith(p)]. *)
Definition endswith (s p : string) : bool :=
  let n := String.length s in
  let k := String.length p in
  (k <=? n)%nat && String.eqb (String.substring (n - k) k s) p.

(** [s[:n]]. *)
Fixpoint take (n : nat) (s : string) : string :=
  match n, s with
  | S k, String c s' => String c (take k s')
  | _, _ => EmptyString
  end.

(** [s[n:]]. *)
Fixpoint drop (n : nat) (s : string) : string :=
  match n, s with
  | S k, String _ s' => drop k s'
  | _, _ => s
  end.

(** [sep.join(l)]. *)
Definition join (sep : string) (l : list string) : string :=
  String.concat sep l.

(** [s.split(sep)] for a one-character separator: always at least one
    component. *)
Fixpoint split (sep : ascii) (s : string) : list string :=
  match s with
  | EmptyString => [EmptyString]
  | String c s' =>
      if Ascii.eqb c sep then EmptyString :: split sep s'
      else match split sep s' with
           | x :: r => String c x :: r
           | [] => [String c EmptyString]
           end
  end.

(** [s.replace(old, new)], first for a non-empty [old]: scan from the left;
    at a match emit [new] and skip the matched characters ([skip] counts
    the ones still to drop), so that matches do not overlap. *)
Fixpoint replace_from (old new : string) (skip : nat) (s : string) : string :=
  match s with
  | EmptyString => EmptyString
  | String c s' =>
      match skip with
      | S k => replace_from old new k s'
      | O =>
          if String.prefix old s
          then new ++ replace_from old new (String.length old - 1) s'
          else String c (replace_from old new 0 s')
      end
  end.

(** With an empty [old], Python puts [new] before every character and at
    the end. *)
Fixpoint intersperse (new s : string) : string :=
  match s with
  | EmptyString => new
  | String c s' => new ++ String c (intersperse new s')
  end.

Definition replace (s old new : string) : string :=
  match old with
  | EmptyString => intersperse new s
  | String _ _ => replace_from old new 0 s
  end.

(** [s] occurs in [t] ([s in t]). *)
Definition occurs_in (s t : string) : Prop :=
  exists pre post : string, t = pre ++ s ++ post.

(** The bytes of [s.encode()]. *)
Definition encode (s : string) : list Z :=
  map (fun c => Z.of_N (N_of_ascii c)) (list_ascii_of_string s).

End Str.

#[global] Arguments Str.replace : simpl never.
#[global] Arguments Str.join : simpl never.
#[global] Arguments Str.quoted : simpl never.

(** ** SHA-256 (FIPS 180-4), as [hashlib.sha256] computes it *)

Module SHA256.
Local Open Scope Z_scope.

(** 32-bit words are integers in [0, 2^32); sums wrap around. *)
Definition wrap (x : Z) : Z := x mod 2 ^ 32.

Definition rotr (n x : Z) : Z :=
  Z.lor (Z.shiftr x n) (wrap (Z.shiftl x (32 - n))).

Definition Ch (x y z : Z) : Z :=
  Z.lxor (Z.land x y) (Z.land (Z.lxor x 0xffffffff) z).

Definition Maj (x y z : Z) : Z :=
  Z.lxor (Z.lxor (Z.land x y) (Z.land x z)) (Z.land y z).

Definition Sigma0 (x : Z) : Z :=
  Z.lxor (Z.lxor (rotr 2 x) (rotr 13 x)) (rotr 22 x).
Definition Sigma1 (x : Z) : Z :=
  Z.lxor (Z.lxor (rotr 6 x) (rotr 11 x)) (rotr 25 x).
Definition sigma0 (x : Z) : Z :=
  Z.lxor (Z.lxor (rotr 7 x) (rotr 18 x)) (Z.shiftr x 3).
Definition sigma1 (x : Z) : Z :=
  Z.lxor (Z.lxor (rotr 17 x) (rotr 19 x)) (Z.shiftr x 10).

(** The constants of FIPS 180-4 come from the first primes: a round
    constant is the first 32 bits of the fractional part of the cube root of
    a prime, an initial hash word the same of its square root. *)
Definition is_prime (p : Z) : bool :=
  (1 <? p) && forallb (fun d => negb (p mod d =? 0))
                      (map Z.of_nat (seq 2 (Z.to_nat p - 2))).

Definition primes_below (n : nat) : list Z :=
  List.filter is_prime (map Z.of_nat (seq 0 n)).

(** The integer cube root below [2 ^ bits], one bit at a time from the
    top. *)
Fixpoint cube_root (bits : nat) (n r : Z) : Z :=
  match bits with
  | O => r
  | S b =>
      let r' := r + 2 ^ Z.of_nat b in
      cube_root b n (if r' * r' * r' <=? n then r' else r)
  end.

Definition cube_root_fraction (p : Z) : Z :=
  wrap (cube_root 40 (p * 2 ^ 96) 0).

Definition square_root_fraction (p : Z) : Z :=
  wrap (Z.sqrt (p * 2 ^ 64)).

(** The 64 round constants. *)
Definition K : list Z :=
  Eval vm_compute in map cube_root_fraction (primes_below 312).

(** The eight working words. *)
Record words8 : Type := W8
  { wa : Z; wb : Z; wc : Z; wd : Z; we : Z; wf : Z; wg : Z; wh : Z }.

Definition H0 : words8 :=
  Eval vm_compute in
    match map square_root_fraction (primes_below 20) with
    | [a; b; c; d; e; f; g; h] => W8 a b c d e f g h
    | _ => W8 0 0 0 0 0 0 0 0
    end.

(** [n] bytes of [x], most significant first. *)
Fixpoint be_bytes (n : nat) (x : Z) : list Z :=
  match n with
  | O => []
  | S k => (Z.shiftr x (8 * Z.of_nat k)) mod 256 :: be_bytes k x
  end.

(** Padding: a one bit, zeros up to 56 modulo 64, the bit length on 64
    bits. *)
Definition pad (msg : list Z) : list Z :=
  let len := Z.of_nat (List.length msg) in
  msg ++ [0x80] ++ List.repeat 0 (Z.to_nat ((55 - len) mod 64))
      ++ be_bytes 8 (8 * len).

(** The blocks of 64 bytes of a padded message ([fuel] bounds their
    number). *)
Fixpoint blocks (fuel : nat) (bs : list Z) : list (list Z) :=
  match fuel, bs with
  | S k, _ :: _ => firstn 64 bs :: blocks k (skipn 64 bs)
  | _, _ => []
  end.

(** Big-endian 32-bit words of a block. *)
Fixpoint be_words (bs : list Z) : list Z :=
  match bs with
  | b0 :: b1 :: b2 :: b3 :: r =>
      Z.lor (Z.lor (Z.shiftl b0 24) (Z.shiftl b1 16))
            (Z.lor (Z.shiftl b2 8) b3) :: be_words r
  | _ => []
  end.

(** Message schedule: [n] more words after the ones of [w]. *)
Fixpoint schedule (n : nat) (w : list Z) : list Z :=
  match n with
  | O => w
  | S k =>
      let t := List.length w in
      let back i := nth (t - i) w 0 in
      schedule k
        (w ++ [wrap (sigma1 (back 2%nat) + back 7%nat
                     + sigma0 (back 15%nat) + back 16%nat)])
  end.

Definition round (st : words8) (kw : Z * Z) : words8 :=
  let '(k, w) := kw in
  let '(W8 a b c d e f g h) := st in
  let t1 := wrap (h + Sigma1 e + Ch e f g + k + w) in
  let t2 := wrap (Sigma0 a + Maj a b c) in
  W8 (wrap (t1 + t2)) a b c (wrap (d + t1)) e f g.

Definition compress (st : words8) (block : list Z) : words8 :=
  let w := schedule 48 (be_words block) in
  let '(W8 a b c d e f g h) := fold_left round (combine K w) st in
  W8 (wrap (wa st + a)) (wrap (wb st + b)) (wrap (wc st + c))
     (wrap (wd st + d)) (wrap (we st + e)) (wrap (wf st + f))
     (wrap (wg st + g)) (wrap (wh st + h)).

Definition digest_words (msg : list Z) : words8 :=
  let p := pad msg in
  fold_left compress (blocks (List.length p) p) H0.

(** One lowercase hexadecimal digit. *)
Definition hexdigit (n : Z) : ascii :=
  match n mod 16 with
  | 0 => "0" | 1 => "1" | 2 => "2" | 3 => "3" | 4 => "4" | 5 => "5"
  | 6 => "6" | 7 => "7" | 8 => "8" | 9 => "9" | 10 => "a" | 11 => "b"
  | 12 => "c" | 13 => "d" | 14 => "e" | _ => "f"
  end%char.

(** The eight hexadecimal digits of a word. *)
Definition hex8 (w : Z) : string :=
  String (hexdigit (Z.shiftr w 28))
 (String (hexdigit (Z.shiftr w 24))
 (String (hexdigit (Z.shiftr w 20))
 (String (hexdigit (Z.shiftr w 16))
 (String (hexdigit (Z.shiftr w 12))
 (String (hexdigit (Z.shiftr w 8))
 (String (hexdigit (Z.shiftr w 4))
 (String (hexdigit w) EmptyString))))))).

(** [hashlib.sha256(msg).hexdigest()]: 64 hexadecimal digits. *)
Definition hexdigest (msg : list Z) : string :=
  let '(W8 a b c d e f g h) := digest_words msg in
  hex8 a ++ hex8 b ++ hex8 c ++ hex8 d
    ++ hex8 e ++ hex8 f ++ hex8 g ++ hex8 h.

End SHA256.

#[global] Arguments SHA256.digest_words : simpl never.
#[global] Arguments SHA256.hexdigest : simpl never.

(** ** Content hasher *)

(** [tex_hash(expression)]: the first 16 characters of the SHA-256 hex digest
    of the encoded text. *)
Definition tex_hash (expression : string) : string :=
  let id_str := expression in
  Str.take 16 (SHA256.hexdigest (Str.encode id_str)).

#[global] Arguments tex_hash : simpl never.

(** The characters of a lowercase hexadecimal numeral. *)
Definition is_lower_hex (c : ascii) : bool :=
  existsb (Ascii.eqb c) (list_ascii_of_string "0123456789abcdef").

(** ** POSIX paths: [os.path] and [pathlib] *)

Module Posix.

(** [os.devnull]. *)
Definition os_devnull : string := "/dev/null".

(** [part.lstrip("/")]. *)
Fixpoint lstrip_sep (part : string) : string :=
  match part with
  | String c r => if Ascii.eqb c "/" then lstrip_sep r else part
  | EmptyString => part
  end.

(** [splitroot] of the POSIX flavour: the root is [//] for exactly two
    leading slashes, [/] for any other number of them. *)
Definition splitroot (part : string) : string * string :=
  if Str.startswith part "/" then
    let stripped_part := lstrip_sep part in
    if (String.length part - String.length stripped_part =? 2)%nat
    then ("//", stripped_part)
    else ("/", stripped_part)
  else (EmptyString, part).

(** A path component that [pathlib] keeps: not empty and not [.]. *)
Definition kept (x : string) : bool :=
  negb (String.eqb x EmptyString) && negb (String.eqb x ".").

(** [Path(p).as_posix()]: the root, then the kept components joined by
    [/]; [.] for the empty path. *)
Definition as_posix (p : string) : string :=
  let '(root, rel) := splitroot p in
  let parts := List.filter kept (Str.split "/" rel) in
  let s := root ++ Str.join "/" parts in
  if String.eqb s EmptyString then "." else s.

(** [os.path.join(a, b)]. *)
Definition path_join (a b : string) : string :=
  if Str.startswith b "/" then b
  else if String.eqb a EmptyString || Str.endswith a "/" then a ++ b
  else a ++ "/" ++ b.

(** [head.rstrip("/")]. *)
Fixpoint rstrip_sep (s : string) : string :=
  match s with
  | EmptyString => EmptyString
  | String c r =>
      match rstrip_sep r with
      | EmptyString =>
          if Ascii.eqb c "/" then EmptyString else String c EmptyString
      | String _ _ as stripped => String c stripped
      end
  end.

(** [(p[:i], p[i:])] for [i = p.rfind("/") + 1]. *)
Fixpoint cut_after_last_sep (p : string) : string * string :=
  match p with
  | EmptyString => (EmptyString, EmptyString)
  | String c r =>
      let '(head, tail) := cut_after_last_sep r in
      match head with
      | String _ _ => (String c head, tail)
      | EmptyString =>
          if Ascii.eqb c "/" then ("/", tail)
          else (EmptyString, String c tail)
      end
  end.

(** [os.path.split(p)]: the part up to the last slash and the part after
    it; the slashes at the end of the first part are dropped unless it
    consists of slashes only. *)
Definition path_split (p : string) : string * string :=
  let '(head, tail) := cut_after_last_sep p in
  match rstrip_sep head with
  | EmptyString => (head, tail)
  | String _ _ as stripped => (stripped, tail)
  end.

(** Text-mode reading translates [\r\n] and [\r] to [\n]
    (universal newlines). *)
Fixpoint universal_newlines (s : string) : string :=
  match s with
  | EmptyString => EmptyString
  | String c r =>
      if Ascii.eqb c "013" then
        match r with
        | String c' _ =>
            if Ascii.eqb c' "010" then universal_newlines r
            else String "010" (universal_newlines r)
        | EmptyString => String "010" EmptyString
        end
      else String c (universal_newlines r)
  end.

(** The lines of a text, each with its line end. *)
Fixpoint keepends (s : string) : list string :=
  match s with
  | EmptyString => []
  | String c r =>
      if Ascii.eqb c "010" then String c EmptyString :: keepends r
      else match keepends r with
           | x :: l => String c x :: l
           | [] => [String c EmptyString]
           end
  end.

End Posix.

#[global] Arguments Posix.as_posix : simpl never.
#[global] Arguments Posix.path_join : simpl never.

(** ** Exceptions, events and the state of the world *)

(** The exceptions the module raises, under the names of the error taxonomy.
    In Python [ToolchainMissing] is a [RuntimeError]; [UnsupportedFormat],
    [UnknownCompiler], [CompilationError] and [ConversionUnsupported] are
    [ValueError]s, told apart by their messages. *)
Inductive error : Type :=
| UnsupportedFormat
    (* ValueError("xelatex output is either pdf or xdv") *)
| UnknownCompiler (tex_compiler : string)
    (* ValueError(f"Tex compiler {tex_compiler} unknown.") *)
| ToolchainMissing (tex_compiler : string)
    (* RuntimeError(f"{tex_compiler} failed but did not produce a log file. ...") *)
| CompilationError (tex_compiler format log_file : string)
    (* ValueError(f"{tex_compiler} error converting to {output_format[1:]}. ...
       the log file: {log_file}") *)
| ConversionUnsupported (extension : string)
    (* ValueError(f"Your installation does not support converting {extension}
       files to SVG. ...") *)
| IndexError
    (* list index out of range *)
| OSError (path : string)
    (* open() of a path that is not a regular file *).

Inductive result (A : Type) : Type :=
| Ok (a : A)
| Raise (e : error).
Arguments Ok {A} a.
Arguments Raise {A} e.

(** A path names a regular file with its text, or a directory. *)
Inductive node : Type :=
| File (content : string)
| Dir.

(** What the module does to the outside, in order. *)
Inductive event : Type :=
| Makedirs (path : string)            (* os.makedirs(path) *)
| LogInfo (message : string)          (* logger.info(message) *)
| WriteFile (path content : string)   (* open(path, "w") and write *)
| System (command : string)           (* os.system(command) *)
| OpenRead (path : string)            (* open(path, "r") *)
| LogError (message : string)         (* logger.error(message) *).

Record state : Type := State
  { disk : gmap string node;
    events : list event }.

(** Computations that read and change the state and may raise. *)
Definition M (A : Type) : Type := state -> result A * state.

Definition ret {A : Type} (a : A) : M A := fun s => (Ok a, s).

Definition raise {A : Type} (e : error) : M A := fun s => (Raise e, s).

Definition bind {A B : Type} (m : M A) (k : A -> M B) : M B :=
  fun s =>
    match m s with
    | (Ok a, s') => k a s'
    | (Raise e, s') => (Raise e, s')
    end.

Definition lift {A : Type} (r : result A) : M A := fun s => (r, s).

#[global] Instance M_ret : MRet M := @ret.
#[global] Instance M_bind : MBind M := fun A B k m => bind m k.

Definition emit (e : event) : M unit :=
  fun s => (Ok tt, State (disk s) (events s ++ [e])).

(** [os.path.exists(path)] and [Path(path).exists()]. *)
Definition exists_on (d : gmap string node) (path : string) : bool :=
  bool_decide (is_Some (d !! path)).

Definition path_exists (path : string) : M bool :=
  fun s => (Ok (exists_on (disk s) path), s).

(** The directories that [os.makedirs(name)] makes on the disk [d],
    outermost first.  The name is split into head and tail (once more when
    the tail is empty); when both are non-empty and the head does not exist,
    the head is made first, by the same procedure, and then the name.
    [fuel] bounds the depth; the length of the name is enough, a head being
    shorter than its name.  A name of the form [head/.] is recorded as well:
    it exists once its head does. *)
Fixpoint makedirs_created (fuel : nat) (d : gmap string node) (name : string)
    : list string :=
  match fuel with
  | O => [name]
  | S k =>
      let '(head, tail) := Posix.path_split name in
      let '(head, tail) :=
        if String.eqb tail EmptyString then Posix.path_split head
        else (head, tail) in
      if negb (String.eqb head EmptyString)
         && negb (String.eqb tail EmptyString)
         && negb (exists_on d head)
      then (makedirs_created k d head ++ [name])%list
      else [name]
  end.

#[global] Arguments makedirs_created : simpl never.

(** The disk with the directories [paths] made. *)
Definition create_dirs (paths : list string) (d : gmap string node)
    : gmap string node :=
  foldr (fun path acc => <[path := Dir]> acc) d paths.

(** [os.makedirs(path)]: the directory and every missing ancestor of it are
    made.  Making a directory always succeeds here; the errors of [mkdir]
    (an ancestor that is a file, a name that exists, the empty name) are
    not modelled. *)
Definition makedirs (path : string) : M unit :=
  fun s =>
    (Ok tt,
     State (create_dirs (makedirs_created (String.length path) (disk s) path)
                        (disk s))
           (events s ++ [Makedirs path])).

(** [with open(path, "w", encoding="utf-8") as outfile: outfile.write(text)]. *)
Definition write_file (path text : string) : M unit :=
  fun s => (Ok tt, State (<[path := File text]> (disk s))
                         (events s ++ [WriteFile path text])).

(** [with open(path, "r") as f: f.readlines()]. *)
Definition readlines (path : string) : M (list string) :=
  fun s =>
    let s' := State (disk s) (events s ++ [OpenRead path]) in
    match disk s !! path with
    | Some (File content) =>
        (Ok (Posix.keepends (Posix.universal_newlines content)), s')
    | _ => (Raise (OSError path), s')
    end.

Definition logger_info (message : string) : M unit := emit (LogInfo message).
Definition logger_error (message : string) : M unit := emit (LogError message).

(** ** Configuration and templates *)

(** The four members of a [TexTemplate] that the module uses. *)
Record TexTemplate : Type :=
  { get_texcode_for_expression : string -> string;
    get_texcode_for_expression_in_env : string -> string -> string;
    tex_compiler : string;
    output_format : string }.

(** The part of the global [config] that the module reads:
    [config["tex_template"]] and [config.get_dir("tex_dir")]. *)
Record Config : Type :=
  { config_tex_template : TexTemplate;
    config_tex_dir : string }.

(** ** Command construction *)

(** The compilers of the first branch of [tex_compilation_command]. *)
Definition latex_family : list string :=
  ["latex"; "pdflatex"; "luatex"; "lualatex"].

(** The list [commands] that [tex_compilation_command] builds before it joins
    it. *)
Definition tex_compilation_commands
    (tex_compiler output_format tex_file tex_dir : string)
    : result (list string) :=
  if bool_decide (tex_compiler ∈ latex_family) then
    Ok [ tex_compiler;
         "-interaction=batchmode";
         "-output-format=" ++ Str.quoted (Str.drop 1 output_format);
         "-halt-on-error";
         "-output-directory=" ++ Str.quoted tex_dir;
         Str.quoted tex_file;
         ">";
         Posix.os_devnull ]
  else if String.eqb tex_compiler "xelatex" then
    match
      (if String.eqb output_format ".xdv" then Ok "-no-pdf"
       else if String.eqb output_format ".pdf" then Ok EmptyString
       else Raise UnsupportedFormat)
    with
    | Ok outflag =>
        Ok [ "xelatex";
             outflag;
             "-interaction=batchmode";
             "-halt-on-error";
             "-output-directory=" ++ Str.quoted tex_dir;
             Str.quoted tex_file;
             ">";
             Posix.os_devnull ]
    | Raise e => Raise e
    end
  else Raise (UnknownCompiler tex_compiler).

(** [tex_compilation_command(tex_compiler, output_format, tex_file, tex_dir)]. *)
Definition tex_compilation_command
    (tex_compiler output_format tex_file tex_dir : string) : result string :=
  match tex_compilation_commands tex_compiler output_format tex_file tex_dir with
  | Ok commands => Ok (Str.join " " commands)
  | Raise e => Raise e
  end.

(** The list [commands] of [convert_to_svg]. *)
Definition dvisvgm_commands (dvi_file extension result : string) (page : Z)
    : list string :=
  [ "dvisvgm";
    if String.eqb extension ".pdf" then "--pdf" else EmptyString;
    "-p " ++ pretty page;
    Str.quoted dvi_file;
    "-n";
    "-v 0";
    "-o " ++ Str.quoted result;
    ">";
    Posix.os_devnull ].

(** ** Scraping the compiler's log *)

(** [[ind for (ind, line) in enumerate(log) if line.startswith("!")]], with
    the enumeration starting at [ind]. *)
Fixpoint log_error_pos_from (ind : nat) (log : list string) : list nat :=
  match log with
  | [] => []
  | line :: rest =>
      if Str.startswith line "!" then ind :: log_error_pos_from (S ind) rest
      else log_error_pos_from (S ind) rest
  end.

Definition log_error_pos (log : list string) : list nat :=
  log_error_pos_from 0 log.

(** The loop [for _ in range(n)] that looks for a line starting with [l.]:
    the value of [printed_lines] when the loop ends, [IndexError] when
    [log[lineno + printed_lines]] is past the end of the log. *)
Fixpoint count_printed_lines
    (log : list string) (lineno n printed_lines : nat) : result nat :=
  match n with
  | O => Ok printed_lines
  | S k =>
      match log !! (lineno + printed_lines)%nat with
      | None => Raise IndexError
      | Some line =>
          if Str.startswith line "l." then Ok printed_lines
          else count_printed_lines log lineno k (S printed_lines)
      end
  end.

(** The slice [log[i:j]] for [i <= len(log)]. *)
Definition slice (log : list string) (i j : nat) : list string :=
  take (j - i) (drop i log).

(** The lines reported for the error at [lineno]:
    [log[lineno : lineno + printed_lines + 1]]. *)
Definition error_excerpt (log : list string) (lineno : nat)
    : result (list string) :=
  match count_printed_lines log lineno 10 1 with
  | Ok printed_lines => Ok (slice log lineno (lineno + printed_lines + 1))
  | Raise e => Raise e
  end.

(** [for line in lines: logger.error(line)]. *)
Fixpoint logger_error_each (lines : list string) : M unit :=
  match lines with
  | [] => mret tt
  | line :: rest => logger_error line ;; logger_error_each rest
  end.

(** [for lineno in log_error_pos: ...]. *)
Fixpoint report_errors (log : list string) (positions : list nat) : M unit :=
  match positions with
  | [] => mret tt
  | lineno :: rest =>
      excerpt ← lift (error_excerpt log lineno);
      logger_error_each excerpt ;;
      report_errors log rest
  end.

(** ** The pipeline *)

Section Pipeline.

(** The global configuration. *)
Variable config : Config.

(** The outside world: what running a command line does to the file system
    and the status that [os.system] returns. *)
Variable os_system : string -> gmap string node -> Z * gmap string node.

(** [os.system(command)]. *)
Definition system (command : string) : M Z :=
  fun s =>
    let '(exit_code, d) := os_system command (disk s) in
    (Ok exit_code, State d (events s ++ [System command])).

(** The document text for an expression. *)
Definition render (expression : string) (environment : option string)
    (tex_template : TexTemplate) : string :=
  match environment with
  | Some environment =>
      get_texcode_for_expression_in_env tex_template expression environment
  | None => get_texcode_for_expression tex_template expression
  end.

(** [generate_tex_file(expression, environment, tex_template)]. *)
Definition generate_tex_file (expression : string)
    (environment : option string) (tex_template : option TexTemplate)
    : M string :=
  let tex_template := default (config_tex_template config) tex_template in
  let output := render expression environment tex_template in
  let tex_dir := config_tex_dir config in
  dir_exists ← path_exists tex_dir;
  (if negb dir_exists then makedirs tex_dir else mret tt) ;;
  let result := Posix.path_join tex_dir (tex_hash output) ++ ".tex" in
  file_exists ← path_exists result;
  (if negb file_exists then
     logger_info ("Writing " ++ Str.quoted expression ++ " to " ++ result) ;;
     write_file result output
   else mret tt) ;;
  mret result.

(** The path [result] of [compile_tex]. *)
Definition compiled_path (tex_file output_format : string) : string :=
  Posix.as_posix (Str.replace tex_file ".tex" output_format).

(** The path [log_file] of [compile_tex]. *)
Definition log_path (tex_file : string) : string :=
  Str.replace (Posix.as_posix tex_file) ".tex" ".log".

(** [compile_tex(tex_file, tex_compiler, output_format)]. *)
Definition compile_tex (tex_file tex_compiler output_format : string)
    : M string :=
  let result := compiled_path tex_file output_format in
  let tex_file := Posix.as_posix tex_file in
  let tex_dir := Posix.as_posix (config_tex_dir config) in
  result_exists ← path_exists result;
  (if negb result_exists then
     command ← lift (tex_compilation_command
                       tex_compiler output_format tex_file tex_dir);
     exit_code ← system command;
     if negb (exit_code =? 0)%Z then
       let log_file := Str.replace tex_file ".tex" ".log" in
       log_exists ← path_exists log_file;
       (if negb log_exists then raise (ToolchainMissing tex_compiler)
        else mret tt) ;;
       log ← readlines log_file;
       let positions := log_error_pos log in
       (match positions with
        | [] => mret tt
        | _ :: _ =>
            logger_error ("LaTeX compilation error! " ++ tex_compiler
                          ++ " reports:") ;;
            report_errors log positions
        end) ;;
       raise (CompilationError tex_compiler (Str.drop 1 output_format)
                               log_file)
     else mret tt
   else mret tt) ;;
  mret result.

(** The path [result] of [convert_to_svg]. *)
Definition svg_path (dvi_file extension : string) : string :=
  Posix.as_posix (Str.replace dvi_file extension ".svg").

(** [convert_to_svg(dvi_file, extension, page)]. *)
Definition convert_to_svg (dvi_file extension : string) (page : Z)
    : M string :=
  let result := svg_path dvi_file extension in
  let dvi_file := Posix.as_posix dvi_file in
  result_exists ← path_exists result;
  (if negb result_exists then
     let commands := dvisvgm_commands dvi_file extension result page in
     system (Str.join " " commands) ;; mret tt
   else mret tt) ;;
  (* if the file does not exist now, this means conversion failed *)
  result_exists ← path_exists result;
  (if negb result_exists then raise (ConversionUnsupported extension)
   else mret tt) ;;
  mret result.

(** [tex_to_svg_file(expression, environment, tex_template)]. *)
Definition tex_to_svg_file (expression : string)
    (environment : option string) (tex_template : option TexTemplate)
    : M string :=
  let tex_template := default (config_tex_template config) tex_template in
  tex_file ← generate_tex_file expression environment (Some tex_template);
  dvi_file ← compile_tex tex_file (tex_compiler tex_template)
                         (output_format tex_template);
  convert_to_svg dvi_file (output_format tex_template) 1.

End Pipeline.

#[global] Arguments compiled_path : simpl never.
#[global] Arguments log_path : simpl never.
#[global] Arguments svg_path : simpl never.
#[global] Arguments dvisvgm_commands : simpl never.


(** ** Sample logs *)

Definition newline : string := String "010" EmptyString.

(** A log whose error is located three lines below its [!] line. *)
Definition log_with_location : list string :=
  [ "This is pdfTeX" ++ newline;
    "! Undefined control sequence." ++ newline;
    "<recently read> \foo " ++ newline;
    newline;
    "l.12 \foo" ++ newline;
    "         {x}" ++ newline ].

(** A log with twelve lines after its [!] line, none starting with [l.]. *)
Definition log_without_location : list string :=
  ("! Emergency stop." ++ newline)
    :: map (fun n : nat => "line " ++ pretty n ++ newline) (seq 1 12).

(** A log that ends with its [!] line, as a run with [-halt-on-error] ends. *)
Definition log_ending_with_error : list string :=
  [ "No pages of output." ++ newline;
    "!  ==> Fatal error occurred, no output PDF file produced!" ++ newline ].

(** The claim that an excerpt has at most ten lines after its first. *)
Definition excerpt_within_ten_lines (log : list string) (lineno : nat) : Prop :=
  forall excerpt : list string,
    error_excerpt log lineno = Ok excerpt -> length excerpt <= 1 + 10.

(** ** States reached by the stages *)

(** The state after [generate_tex_file]: the directory is created when it
    is absent, then the document is announced and written when it is
    absent. *)
Definition after_makedirs (config : Config) (s : state) : state :=
  if exists_on (disk s) (config_tex_dir config) then s
  else State (create_dirs
                (makedirs_created (String.length (config_tex_dir config))
                                  (disk s) (config_tex_dir config))
                (disk s))
             (events s ++ [Makedirs (config_tex_dir config)]).

Definition after_write (expression result output : string) (s : state)
    : state :=
  if exists_on (disk s) result then s
  else State (<[result := File output]> (disk s))
             ((events s ++ [LogInfo ("Writing " ++ Str.quoted expression
                                     ++ " to " ++ result)])
                ++ [WriteFile result output]).


(** ** Assumptions on the outside world *)

(** The commands never remove a path: what exists before a run exists after
    it. *)
Definition keeps_paths
    (os_system : string -> gmap string node -> Z * gmap string node) : Prop :=
  forall (command : string) (d : gmap string node) (path : string),
    exists_on d path = true ->
    exists_on (os_system command d).2 path = true.

(** ** Sample configuration, states and command runners *)

Definition sample_template : TexTemplate :=
  {| get_texcode_for_expression := fun expression =>
       "\documentclass{standalone}\begin{document}$" ++ expression
         ++ "$\end{document}";
     get_texcode_for_expression_in_env := fun expression environment =>
       "\documentclass{standalone}\begin{document}\begin{" ++ environment
         ++ "}" ++ expression ++ "\end{" ++ environment ++ "}\end{document}";
     tex_compiler := "latex";
     output_format := ".dvi" |}.

Definition sample_config : Config :=
  {| config_tex_template := sample_template;
     config_tex_dir := "media/Tex" |}.

Definition empty_state : state := State ∅ [].

(** The three artifacts of the expression [x^2] under [sample_config]. *)
Definition sample_tex_file : string :=
  Eval vm_compute in
    Posix.path_join "media/Tex"
      (tex_hash (get_texcode_for_expression sample_template "x^2")) ++ ".tex".

Definition sample_dvi_file : string :=
  Eval vm_compute in compiled_path sample_tex_file ".dvi".

Definition sample_svg_file : string :=
  Eval vm_compute in svg_path sample_dvi_file ".dvi".

(** No compiler and no converter installed: the shell returns status 127
    (32512 as a wait status) and nothing is written. *)
Definition no_toolchain (command : string) (d : gmap string node)
    : Z * gmap string node :=
  (32512%Z, d).

(** A working toolchain for the sample document: the converter writes the
    SVG, the compiler writes the DVI; both return status 0. *)
Definition working_toolchain (command : string) (d : gmap string node)
    : Z * gmap string node :=
  if Str.startswith command "dvisvgm"
  then (0%Z, <[sample_svg_file := File "<svg/>"]> d)
  else (0%Z, <[sample_dvi_file := File "dvi"]> d).

(** A converter that writes the SVG and yet returns a status other than 0. *)
Definition grumbling_converter (command : string) (d : gmap string node)
    : Z * gmap string node :=
  (256%Z, <[sample_svg_file := File "<svg/>"]> d).

(** A converter that returns status 0 and writes nothing. *)
Definition silent_converter (command : string) (d : gmap string node)
    : Z * gmap string node :=
  (0%Z, d).

(** A working directory whose name contains [.tex], and the toolchain as it
    behaves there: the compiler writes the DVI next to the document, in
    its output directory; the converter writes the SVG when its input file
    exists and fails when it does not. *)
Definition texts_config : Config :=
  {| config_tex_template := sample_template;
     config_tex_dir := "/home/ada/notes.texts/Tex" |}.

Definition texts_tex_file : string :=
  Eval vm_compute in
    Posix.path_join "/home/ada/notes.texts/Tex"
      (tex_hash (get_texcode_for_expression sample_template "x^2")) ++ ".tex".

Definition texts_toolchain (command : string) (d : gmap string node)
    : Z * gmap string node :=
  if Str.startswith command "dvisvgm" then
    if exists_on d (compiled_path texts_tex_file ".dvi")
    then (0%Z, <[svg_path (compiled_path texts_tex_file ".dvi") ".dvi"
                 := File "<svg/>"]> d)
    else (256%Z, d)
  else
    (0%Z, <[Str.take (String.length texts_tex_file - 4) texts_tex_file
              ++ ".dvi" := File "dvi"]> d).

(** ** More sample inputs *)

(** A compiler that fails and leaves the log [log_with_location]. *)
Definition failing_compiler (command : string) (d : gmap string node)
    : Z * gmap string node :=
  (256%Z,
   <[log_path sample_tex_file
     := File (String.concat EmptyString log_with_location)]> d).

(** A compiler that fails and leaves the log [log_ending_with_error]. *)
Definition halting_compiler (command : string) (d : gmap string node)
    : Z * gmap string node :=
  (256%Z,
   <[log_path sample_tex_file
     := File (String.concat EmptyString log_ending_with_error)]> d).

(** The log that [compile_tex] reads from a disk: the lines of the text of
    the file at [path]. *)
Definition log_lines (d : gmap string node) (path : string)
    : option (list string) :=
  match d !! path with
  | Some (File content) =>
      Some (Posix.keepends (Posix.universal_newlines content))
  | _ => None
  end.

(** The events of the error report: the headline when there is an error
    line, then the lines of the excerpts. *)
Definition report_events (tex_compiler : string) (log : list string)
    (excerpts : list (list string)) : list event :=
  match log_error_pos log with
  | [] => []
  | _ :: _ =>
      LogError ("LaTeX compilation error! " ++ tex_compiler ++ " reports:")
        :: map LogError (concat excerpts)
  end.

(** [s.find(sub)]: the lowest position at which [sub] occurs in [s], counted
    from [i]; [None] for Python's [-1]. *)
Fixpoint str_find_from (s sub : string) (i : nat) : option nat :=
  if String.prefix sub s then Some i
  else match s with
       | EmptyString => None
       | String _ s' => str_find_from s' sub (S i)
       end.

Definition str_find (s sub : string) : option nat := str_find_from s sub 0.



(** Events that leave the disk alone: opening a file for reading and
    logging an error. *)
Definition reads_or_logs (ev : event) : Prop :=
  match ev with
  | OpenRead _ | LogError _ => True
  | _ => False
  end.

(** A path component: a string without a slash. *)
Definition slash_free (s : string) : Prop :=
  Forall (fun c => c <> "/"%char) (list_ascii_of_string s).
(** * Properties *)

(** ** The content hasher *)

Example round_constants :
  length SHA256.K = 64
  /\ SHA256.K !! 0%nat = Some 0x428a2f98%Z
  /\ SHA256.K !! 63%nat = Some 0xc67178f2%Z
  /\ SHA256.wa SHA256.H0 = 0x6a09e667%Z
  /\ SHA256.wh SHA256.H0 = 0x5be0cd19%Z.
Proof. repeat split. Qed.

Example sha_abc :
  SHA256.hexdigest (Str.encode "abc")
  = "ba7816bf8f01cfea414140de5dae2223b00361a396177a9cb410ff61f20015ad".
Proof. vm_compute. reflexivity. Qed.

Example sha_empty :
  SHA256.hexdigest (Str.encode EmptyString)
  = "e3b0c44298fc1c149afbf4c8996fb92427ae41e4649b934ca495991b7852b855".
Proof. vm_compute. reflexivity. Qed.

Example sha_two_blocks :
  SHA256.hexdigest
    (Str.encode "abcdbcdecdefdefgefghfghighijhijkijkljklmklmnlmnomnopnopq")
  = "248d6a61d20638b8e5c026930c3e6039a33ce45964ff2167f6ecedd419db06c1".
Proof. vm_compute. reflexivity. Qed.

Lemma hexdigit_lower_hex (n : Z) : is_lower_hex (SHA256.hexdigit n) = true.
Proof.
  unfold SHA256.hexdigit.
  repeat match goal with
         | |- context [match ?x with _ => _ end] => destruct x
         end; reflexivity.
Qed.

Lemma hex8_length (w : Z) : String.length (SHA256.hex8 w) = 8.
Proof. reflexivity. Qed.

Lemma hexdigest_length (msg : list Z) :
  String.length (SHA256.hexdigest msg) = 64.
Proof.
  unfold SHA256.hexdigest. destruct (SHA256.digest_words msg). reflexivity.
Qed.

Lemma prefix_take (n : nat) (s : string) :
  String.prefix (Str.take n s) s = true.
Proof.
  revert n. induction s as [|c s IH]; intros [|n]; simpl; try reflexivity.
  destruct (ascii_dec c c) as [_|Hne]; [apply IH|destruct Hne; reflexivity].
Qed.

(** The 16 characters kept are the digits of the first two words of the
    digest. *)
Lemma tex_hash_words (t : string) :
  tex_hash t
  = SHA256.hex8 (SHA256.wa (SHA256.digest_words (Str.encode t)))
    ++ SHA256.hex8 (SHA256.wb (SHA256.digest_words (Str.encode t))).
Proof.
  unfold tex_hash, SHA256.hexdigest.
  destruct (SHA256.digest_words (Str.encode t)). reflexivity.
Qed.

(** C2. [tex_hash] is a total function of its text alone: it takes no state
    and raises nothing, and for every text its value is a string of exactly
    16 characters, each a lowercase hexadecimal digit; it is the 16-character
    prefix of the 64-character SHA-256 hex digest of the encoded text. *)
Theorem tex_hash_sixteen_lower_hex :
  forall t : string,
    String.length (tex_hash t) = 16
    /\ Forall (fun c => is_lower_hex c = true)
              (list_ascii_of_string (tex_hash t))
    /\ String.length (SHA256.hexdigest (Str.encode t)) = 64
    /\ String.prefix (tex_hash t) (SHA256.hexdigest (Str.encode t)) = true.
Proof.
  intros t. split; [|split; [|split]].
  - rewrite tex_hash_words. reflexivity.
  - rewrite tex_hash_words. unfold SHA256.hex8. cbn [String.append list_ascii_of_string].
    repeat (constructor; [apply hexdigit_lower_hex|]).
    constructor.
  - apply hexdigest_length.
  - apply prefix_take.
Qed.

Example tex_hash_abc : tex_hash "abc" = "ba7816bf8f01cfea".
Proof. vm_compute. reflexivity. Qed.

(** ** Command construction *)

Lemma latex_family_spec (tex_compiler : string) :
  tex_compiler ∈ latex_family
  <-> tex_compiler = "latex" \/ tex_compiler = "pdflatex"
      \/ tex_compiler = "luatex" \/ tex_compiler = "lualatex".
Proof.
  unfold latex_family. rewrite !elem_of_cons, elem_of_nil. tauto.
Qed.

(** Membership in a list that is written out. *)
Ltac list_member :=
  repeat first [apply list_elem_of_here | apply list_elem_of_further].

Lemma xelatex_not_latex_family : "xelatex" ∉ latex_family.
Proof. rewrite latex_family_spec. intros [H|[H|[H|H]]]; discriminate H. Qed.

(** C9. For every compiler of the latex family the command is built without
    error, and it is the compiler name followed by the batch-mode flag, the
    output-format flag carrying [output_format] without its first character
    (for [.dvi]: [dvi]), the halt-on-error flag, the output-directory flag
    carrying [tex_dir], the quoted file name, and a redirection of standard
    output to the null device, separated by single spaces. *)
Theorem latex_family_command :
  forall tex_compiler output_format tex_file tex_dir : string,
    tex_compiler ∈ latex_family ->
    exists commands : list string,
      tex_compilation_command tex_compiler output_format tex_file tex_dir
      = Ok (Str.join " " commands)
      /\ "-interaction=batchmode" ∈ commands
      /\ "-halt-on-error" ∈ commands
      /\ ("-output-format=" ++ Str.quoted (Str.drop 1 output_format)) ∈ commands
      /\ (forall format : string,
            output_format = "." ++ format ->
            ("-output-format=" ++ Str.quoted format) ∈ commands)
      /\ ("-output-directory=" ++ Str.quoted tex_dir) ∈ commands
      /\ (exists front : list string,
            commands = (front ++ [">"; Posix.os_devnull])%list)
      /\ Str.join " " commands
         = tex_compiler ++ " -interaction=batchmode -output-format="
           ++ Str.quoted (Str.drop 1 output_format)
           ++ " -halt-on-error -output-directory=" ++ Str.quoted tex_dir
           ++ " " ++ Str.quoted tex_file ++ " > /dev/null".
Proof.
  intros tex_compiler output_format tex_file tex_dir Hin.
  eexists. unfold tex_compilation_command, tex_compilation_commands.
  rewrite bool_decide_eq_true_2 by exact Hin.
  split; [reflexivity|].
  repeat split.
  - list_member.
  - list_member.
  - list_member.
  - intros format ->. cbn [Str.drop String.append]. list_member.
  - list_member.
  - eexists [_; _; _; _; _; _]. reflexivity.
Qed.

Lemma latex_family_command_witness :
  exists commands : list string,
    tex_compilation_command "pdflatex" ".pdf" "media/Tex/ab.tex" "media/Tex"
    = Ok (Str.join " " commands)
    /\ ("-output-format=" ++ Str.quoted "pdf") ∈ commands.
Proof.
  destruct (latex_family_command "pdflatex" ".pdf" "media/Tex/ab.tex"
              "media/Tex") as (commands & Hc & _ & _ & _ & Hf & _).
  - apply latex_family_spec. right. left. reflexivity.
  - exists commands. split; [exact Hc|]. apply (Hf "pdf"). reflexivity.
Defined.

(** C3. For the compiler [xelatex]: with the format [.xdv] the list of
    tokens is built with the flag [-no-pdf] in second place, and the command
    is [xelatex -no-pdf -interaction=batchmode ...]; with [.pdf] the list is
    built with the empty string in the flag's place and no token [-no-pdf],
    and the command is [xelatex], two spaces, [-interaction=batchmode ...]:
    nothing stands between the compiler and the batch-mode flag; with any
    other format the construction raises [UnsupportedFormat].  For a compiler
    name that is neither of the latex family nor [xelatex] it raises
    [UnknownCompiler], whatever the format. *)
Theorem xelatex_and_unknown_compiler_command :
  forall tex_file tex_dir : string,
    (tex_compilation_commands "xelatex" ".xdv" tex_file tex_dir
     = Ok [ "xelatex"; "-no-pdf"; "-interaction=batchmode"; "-halt-on-error";
            "-output-directory=" ++ Str.quoted tex_dir; Str.quoted tex_file;
            ">"; Posix.os_devnull ]
     /\ tex_compilation_command "xelatex" ".xdv" tex_file tex_dir
        = Ok ("xelatex -no-pdf -interaction=batchmode -halt-on-error "
              ++ "-output-directory=" ++ Str.quoted tex_dir ++ " "
              ++ Str.quoted tex_file ++ " > /dev/null"))
    /\ (tex_compilation_commands "xelatex" ".pdf" tex_file tex_dir
        = Ok [ "xelatex"; EmptyString; "-interaction=batchmode";
               "-halt-on-error"; "-output-directory=" ++ Str.quoted tex_dir;
               Str.quoted tex_file; ">"; Posix.os_devnull ]
        /\ ("-no-pdf" ∉ [ "xelatex"; EmptyString; "-interaction=batchmode";
                          "-halt-on-error";
                          "-output-directory=" ++ Str.quoted tex_dir;
                          Str.quoted tex_file; ">"; Posix.os_devnull ])
        /\ tex_compilation_command "xelatex" ".pdf" tex_file tex_dir
           = Ok ("xelatex  -interaction=batchmode -halt-on-error "
                 ++ "-output-directory=" ++ Str.quoted tex_dir ++ " "
                 ++ Str.quoted tex_file ++ " > /dev/null"))
    /\ (forall output_format : string,
           output_format <> ".xdv" -> output_format <> ".pdf" ->
           tex_compilation_commands "xelatex" output_format tex_file tex_dir
           = Raise UnsupportedFormat
           /\ tex_compilation_command "xelatex" output_format tex_file tex_dir
              = Raise UnsupportedFormat)
    /\ (forall tex_compiler output_format : string,
           tex_compiler ∉ latex_family -> tex_compiler <> "xelatex" ->
           tex_compilation_commands tex_compiler output_format tex_file
                                    tex_dir
           = Raise (UnknownCompiler tex_compiler)
           /\ tex_compilation_command tex_compiler output_format tex_file
                                      tex_dir
              = Raise (UnknownCompiler tex_compiler)).
Proof.
  intros tex_file tex_dir. split; [|split; [|split]].
  - split; reflexivity.
  - split; [reflexivity|]. split; [|reflexivity].
    rewrite !elem_of_cons, elem_of_nil.
    intros [H|[H|[H|[H|[H|[H|[H|[H|[]]]]]]]]]; discriminate H.
  - intros output_format Hxdv Hpdf.
    assert (H : tex_compilation_commands "xelatex" output_format tex_file
                  tex_dir = Raise UnsupportedFormat).
    { unfold tex_compilation_commands.
      rewrite bool_decide_eq_false_2 by exact xelatex_not_latex_family.
      cbn [String.eqb Ascii.eqb Bool.eqb].
      destruct (String.eqb_spec output_format ".xdv") as [E|_];
        [contradiction|].
      destruct (String.eqb_spec output_format ".pdf") as [E|_];
        [contradiction|].
      reflexivity. }
    split; [exact H|]. unfold tex_compilation_command. rewrite H. reflexivity.
  - intros tex_compiler output_format Hfam Hxe.
    assert (H : tex_compilation_commands tex_compiler output_format tex_file
                  tex_dir = Raise (UnknownCompiler tex_compiler)).
    { unfold tex_compilation_commands.
      rewrite bool_decide_eq_false_2 by exact Hfam.
      destruct (String.eqb_spec tex_compiler "xelatex") as [E|_];
        [contradiction|].
      reflexivity. }
    split; [exact H|]. unfold tex_compilation_command. rewrite H. reflexivity.
Qed.

Lemma xelatex_and_unknown_compiler_command_witness :
  tex_compilation_command "xelatex" ".dvi" "media/Tex/ab.tex" "media/Tex"
  = Raise UnsupportedFormat
  /\ tex_compilation_command "not-a-compiler" ".dvi" "media/Tex/ab.tex"
       "media/Tex"
     = Raise (UnknownCompiler "not-a-compiler")
  /\ tex_compilation_command "xelatex" ".pdf" "media/Tex/ab.tex" "media/Tex"
     = Ok ("xelatex  -interaction=batchmode -halt-on-error "
           ++ "-output-directory=" ++ Str.quoted "media/Tex" ++ " "
           ++ Str.quoted "media/Tex/ab.tex" ++ " > /dev/null").
Proof.
  destruct (xelatex_and_unknown_compiler_command "media/Tex/ab.tex" "media/Tex")
    as (_ & (_ & _ & Hpdf) & Hformat & Hunknown).
  split; [|split].
  - apply Hformat; discriminate.
  - apply Hunknown; [|discriminate].
    rewrite latex_family_spec. intros [H|[H|[H|H]]]; discriminate H.
  - exact Hpdf.
Defined.

(** ** The excerpt of the log reported for an error *)

Lemma log_error_pos_from_spec (log : list string) (ind i : nat) :
  i ∈ log_error_pos_from ind log
  <-> exists line : string,
        ind <= i /\ log !! (i - ind) = Some line
        /\ Str.startswith line "!" = true.
Proof.
  revert ind. induction log as [|l log IH]; intros ind; simpl.
  - rewrite elem_of_nil. split; [tauto|]. intros (line & _ & H & _).
    discriminate H.
  - destruct (Str.startswith l "!") eqn:Hl.
    + rewrite elem_of_cons, IH. split.
      * intros [->|(line & Hle & Hlook & Hs)].
        -- exists l. rewrite Nat.sub_diag. auto.
        -- exists line. split; [lia|]. split; [|exact Hs].
           replace (i - ind) with (S (i - S ind)) by lia. exact Hlook.
      * intros (line & Hle & Hlook & Hs).
        destruct (decide (i = ind)) as [->|Hne]; [left; reflexivity|right].
        exists line. split; [lia|]. split; [|exact Hs].
        replace (i - ind) with (S (i - S ind)) in Hlook by lia. exact Hlook.
    + rewrite IH. split.
      * intros (line & Hle & Hlook & Hs). exists line. split; [lia|].
        split; [|exact Hs].
        replace (i - ind) with (S (i - S ind)) by lia. exact Hlook.
      * intros (line & Hle & Hlook & Hs).
        destruct (decide (i = ind)) as [->|Hne].
        -- rewrite Nat.sub_diag in Hlook. simpl in Hlook. congruence.
        -- exists line. split; [lia|]. split; [|exact Hs].
           replace (i - ind) with (S (i - S ind)) in Hlook by lia. exact Hlook.
Qed.

(** The positions scanned are exactly the lines that start with [!]. *)
Lemma log_error_pos_spec (log : list string) (i : nat) :
  i ∈ log_error_pos log
  <-> exists line : string,
        log !! i = Some line /\ Str.startswith line "!" = true.
Proof.
  unfold log_error_pos. rewrite log_error_pos_from_spec. split.
  - intros (line & _ & H & Hs). rewrite Nat.sub_0_r in H. eauto.
  - intros (line & H & Hs). exists line. rewrite Nat.sub_0_r.
    split; [lia|]. auto.
Qed.

(** The loop stops at the first line that starts with [l.], when that line
    is among the [n] lines it looks at. *)
Lemma count_printed_lines_found (log : list string) (lineno : nat) :
  forall (n p k : nat) (line : string),
    k < n ->
    log !! (lineno + (p + k)) = Some line ->
    Str.startswith line "l." = true ->
    (forall (j : nat) (l : string),
        j < k -> log !! (lineno + (p + j)) = Some l ->
        Str.startswith l "l." = false) ->
    count_printed_lines log lineno n p = Ok (p + k).
Proof.
  induction n as [|n IH]; intros p k line Hk Hline Hloc Hbefore; [lia|].
  simpl. destruct k as [|k].
  - rewrite Nat.add_0_r in *. rewrite Hline, Hloc. reflexivity.
  - assert (Hlen : lineno + p < length log).
    { apply lookup_lt_Some in Hline. lia. }
    destruct (lookup_lt_is_Some_2 log (lineno + p) Hlen) as [l0 Hl0].
    rewrite Hl0.
    rewrite (Hbefore 0 l0) by (rewrite ?Nat.add_0_r; auto with lia).
    replace (p + S k) with (S p + k) by lia.
    apply (IH (S p) k line); [lia| |exact Hloc|].
    + rewrite <- Hline. f_equal. lia.
    + intros j l Hj Hl. apply (Hbefore (S j) l); [lia|].
      rewrite <- Hl. f_equal. lia.
Qed.

(** The loop runs to its end when the [n] lines it looks at exist and none
    starts with [l.]. *)
Lemma count_printed_lines_exhausted (log : list string) (lineno : nat) :
  forall n p : nat,
    (forall j : nat,
        j < n ->
        exists l : string,
          log !! (lineno + (p + j)) = Some l
          /\ Str.startswith l "l." = false) ->
    count_printed_lines log lineno n p = Ok (p + n).
Proof.
  induction n as [|n IH]; intros p Hall; simpl.
  - f_equal. lia.
  - destruct (Hall 0) as (l & Hl & Hs); [lia|].
    rewrite Nat.add_0_r in Hl. rewrite Hl, Hs.
    replace (p + S n) with (S p + n) by lia. apply IH.
    intros j Hj. destruct (Hall (S j)) as (l' & Hl' & Hs'); [lia|].
    exists l'. split; [|exact Hs']. rewrite <- Hl'. f_equal. lia.
Qed.

(** The loop raises [IndexError] when the log ends before a line starting
    with [l.] and before [n] lines were looked at. *)
Lemma count_printed_lines_past_end (log : list string) (lineno : nat) :
  forall n p : nat,
    lineno + p <= length log ->
    length log < lineno + p + n ->
    (forall (j : nat) (l : string),
        log !! (lineno + (p + j)) = Some l ->
        Str.startswith l "l." = false) ->
    count_printed_lines log lineno n p = Raise IndexError.
Proof.
  induction n as [|n IH]; intros p Hle Hlen Hall; simpl; [lia|].
  destruct (log !! (lineno + p)) as [l|] eqn:E; [|reflexivity].
  rewrite (Hall 0 l) by (rewrite Nat.add_0_r; exact E).
  apply lookup_lt_Some in E. apply IH; [lia|lia|].
  intros j l' Hl'. apply (Hall (S j) l'). rewrite <- Hl'. f_equal. lia.
Qed.

Lemma slice_length (log : list string) (i j : nat) :
  length (slice log i j) = Nat.min (j - i) (length log - i).
Proof. unfold slice. rewrite length_take, length_drop. reflexivity. Qed.

Lemma slice_lookup (log : list string) (i j k : nat) :
  k < j - i -> slice log i j !! k = log !! (i + k).
Proof.
  intros Hk. unfold slice. rewrite lookup_take_lt by exact Hk.
  apply lookup_drop.
Qed.

(** C4 (amended). For every log and every line number [lineno]:
    - if the first line after [lineno] that starts with [l.] is line
      [lineno + k] with [1 <= k <= 10], the excerpt is exactly the lines
      [lineno], ..., [lineno + k] of the log, the [l.] line included;
    - if the ten lines after [lineno] exist and none of them starts with [l.],
      the excerpt is the line [lineno] and the lines after it up to line
      [lineno + 11]: eleven following lines when the log has that many, ten
      otherwise. *)
Theorem error_excerpt_window :
  forall (log : list string) (lineno : nat),
    (forall (k : nat) (line : string),
        1 <= k <= 10 ->
        log !! (lineno + k) = Some line ->
        Str.startswith line "l." = true ->
        (forall (j : nat) (l : string),
            1 <= j < k -> log !! (lineno + j) = Some l ->
            Str.startswith l "l." = false) ->
        exists excerpt : list string,
          error_excerpt log lineno = Ok excerpt
          /\ length excerpt = k + 1
          /\ forall i : nat, i <= k -> excerpt !! i = log !! (lineno + i))
    /\ ((forall j : nat,
            1 <= j <= 10 ->
            exists l : string,
              log !! (lineno + j) = Some l
              /\ Str.startswith l "l." = false) ->
        exists excerpt : list string,
          error_excerpt log lineno = Ok excerpt
          /\ length excerpt = Nat.min 12 (length log - lineno)
          /\ 11 <= length excerpt <= 12
          /\ forall i : nat, i < 12 -> excerpt !! i = log !! (lineno + i)).
Proof.
  intros log lineno. split.
  - intros k line Hk Hline Hloc Hbefore.
    assert (Hcount : count_printed_lines log lineno 10 1 = Ok k).
    { replace (Ok k) with (@Ok nat (1 + (k - 1))) by (f_equal; lia).
      apply (count_printed_lines_found log lineno 10 1 (k - 1) line).
      - lia.
      - rewrite <- Hline. f_equal. lia.
      - exact Hloc.
      - intros j l Hj Hl. apply (Hbefore (1 + j) l); [lia|exact Hl]. }
    exists (slice log lineno (lineno + k + 1)).
    unfold error_excerpt. rewrite Hcount. split; [reflexivity|].
    apply lookup_lt_Some in Hline. split.
    + rewrite slice_length. lia.
    + intros i Hi. apply slice_lookup. lia.
  - intros Hall.
    assert (Hcount : count_printed_lines log lineno 10 1 = Ok 11).
    { apply (count_printed_lines_exhausted log lineno 10 1).
      intros j Hj. apply (Hall (1 + j)). lia. }
    exists (slice log lineno (lineno + 11 + 1)).
    unfold error_excerpt. rewrite Hcount. split; [reflexivity|].
    destruct (Hall 10) as (l & Hl & _); [lia|].
    apply lookup_lt_Some in Hl.
    rewrite slice_length.
    split; [|split]; [lia|lia|].
    intros i Hi. apply slice_lookup. lia.
Qed.

Lemma error_excerpt_window_witness :
  (exists excerpt : list string,
      error_excerpt log_with_location 1 = Ok excerpt
      /\ length excerpt = 4)
  /\ (exists excerpt : list string,
         error_excerpt log_without_location 0 = Ok excerpt
         /\ length excerpt = 12).
Proof.
  destruct (error_excerpt_window log_with_location 1) as [Hfound _].
  destruct (error_excerpt_window log_without_location 0) as [_ Hnone].
  split.
  - destruct (Hfound 3 ("l.12 \foo" ++ newline)) as (excerpt & He & Hlen & _).
    + lia.
    + reflexivity.
    + reflexivity.
    + intros j l Hj Hl.
      assert (Hcases : j = 1 \/ j = 2) by lia.
      destruct Hcases as [-> | ->]; vm_compute in Hl;
        injection Hl as <-; reflexivity.
    + exists excerpt. split; [exact He|exact Hlen].
  - destruct Hnone as (excerpt & He & Hlen & _).
    + intros j Hj.
      assert (Hcases : j = 1 \/ j = 2 \/ j = 3 \/ j = 4 \/ j = 5 \/ j = 6
                       \/ j = 7 \/ j = 8 \/ j = 9 \/ j = 10) by lia.
      repeat destruct Hcases as [-> | Hcases]; try subst j;
        (eexists; split; [vm_compute; reflexivity|reflexivity]).
    + exists excerpt. split; [exact He|]. rewrite Hlen. reflexivity.
Defined.

(** C4, as it is written, fails: the log [log_without_location] has its only
    [!] line at position 0 and no line starting with [l.]; the excerpt is the
    [!] line and the eleven lines after it. *)
Lemma excerpt_exceeds_ten_lines :
  log_error_pos log_without_location = [0]
  /\ Forall (fun l => Str.startswith l "l." = false) log_without_location
  /\ error_excerpt log_without_location 0
     = Ok (take 12 log_without_location)
  /\ length (take 12 log_without_location) = 12
  /\ ~ excerpt_within_ten_lines log_without_location 0.
Proof.
  split; [vm_compute; reflexivity|].
  split; [repeat constructor|].
  split; [vm_compute; reflexivity|].
  split; [reflexivity|].
  intros H. specialize (H (take 12 log_without_location)).
  assert (Hlen : length (take 12 log_without_location) = 12) by reflexivity.
  rewrite Hlen in H. assert (12 <= 1 + 10) by (apply H; vm_compute; reflexivity).
  lia.
Qed.

(** A [!] line with fewer than ten lines after it and no line starting with
    [l.] makes the scan read past the end of the log. *)
Lemma error_excerpt_past_end (log : list string) (lineno : nat) :
  lineno < length log ->
  length log < lineno + 11 ->
  (forall (j : nat) (l : string),
      log !! (lineno + (1 + j)) = Some l -> Str.startswith l "l." = false) ->
  error_excerpt log lineno = Raise IndexError.
Proof.
  intros Hlt Hlen Hall. unfold error_excerpt.
  rewrite (count_printed_lines_past_end log lineno 10 1); auto with lia.
Qed.

Example error_excerpt_last_line :
  error_excerpt log_ending_with_error 1 = Raise IndexError.
Proof. reflexivity. Qed.

(** ** Strings and paths *)

Lemma string_append_cons (c : ascii) (s t : string) :
  String c s ++ t = String c (s ++ t).
Proof. reflexivity. Qed.

Lemma string_append_nil_l (t : string) : EmptyString ++ t = t.
Proof. reflexivity. Qed.

Lemma string_length_append (s t : string) :
  String.length (s ++ t) = String.length s + String.length t.
Proof.
  induction s as [|c s IH]; [reflexivity|].
  rewrite string_append_cons. simpl. rewrite IH. reflexivity.
Qed.

Lemma string_append_nil_r (s : string) : s ++ EmptyString = s.
Proof.
  induction s as [|c s IH]; [reflexivity|].
  rewrite string_append_cons, IH. reflexivity.
Qed.

Lemma string_append_assoc (s t u : string) : (s ++ t) ++ u = s ++ t ++ u.
Proof.
  induction s as [|c s IH]; [reflexivity|].
  rewrite !string_append_cons, IH. reflexivity.
Qed.

Lemma prefix_refl (s : string) : String.prefix s s = true.
Proof.
  induction s as [|c s IH]; simpl; [reflexivity|].
  destruct (ascii_dec c c) as [_|Hne]; [exact IH|destruct Hne; reflexivity].
Qed.

(** A fingerprint is not an absolute path: [os.path.join] keeps the
    directory in front of it. *)
Lemma tex_hash_not_absolute (t : string) :
  Str.startswith (tex_hash t) "/" = false.
Proof.
  rewrite tex_hash_words.
  generalize (SHA256.wa (SHA256.digest_words (Str.encode t))).
  generalize (SHA256.wb (SHA256.digest_words (Str.encode t))).
  intros wb wa. unfold SHA256.hex8, Str.startswith.
  rewrite string_append_cons.
  pose proof (hexdigit_lower_hex (wa ≫ 28)%Z) as H.
  generalize dependent (SHA256.hexdigit (wa ≫ 28)%Z). intros c H.
  cbn [String.prefix].
  destruct (ascii_dec "/" c) as [E|_]; [|reflexivity].
  rewrite <- E in H. discriminate H.
Qed.

Lemma path_join_tex_hash (tex_dir t : string) :
  Posix.path_join tex_dir (tex_hash t) = tex_dir ++ tex_hash t
  \/ Posix.path_join tex_dir (tex_hash t) = tex_dir ++ "/" ++ tex_hash t.
Proof.
  unfold Posix.path_join. rewrite tex_hash_not_absolute.
  destruct (_ || _); [left|right]; reflexivity.
Qed.


(** ** The file system *)

Lemma exists_on_true (d : gmap string node) (path : string) :
  exists_on d path = true <-> is_Some (d !! path).
Proof. unfold exists_on. apply bool_decide_eq_true. Qed.

Lemma exists_on_insert (d : gmap string node) (path : string) (n : node) :
  exists_on (<[path := n]> d) path = true.
Proof. apply exists_on_true. rewrite lookup_insert_eq. eauto. Qed.

Lemma exists_on_insert_ne (d : gmap string node) (p q : string) (n : node) :
  p <> q -> exists_on (<[p := n]> d) q = exists_on d q.
Proof.
  intros Hne. unfold exists_on. rewrite lookup_insert_ne by exact Hne.
  reflexivity.
Qed.

Lemma exists_on_insert_keeps (d : gmap string node) (p q : string) (n : node) :
  exists_on d q = true -> exists_on (<[p := n]> d) q = true.
Proof.
  intros H. destruct (decide (p = q)) as [->|Hne].
  - apply exists_on_insert.
  - rewrite exists_on_insert_ne by exact Hne. exact H.
Qed.

(** ** Making directories *)

Lemma prefix_iff (s1 s2 : string) :
  String.prefix s1 s2 = true <-> exists r : string, s2 = s1 ++ r.
Proof.
  revert s2. induction s1 as [|c s1 IH]; intros s2.
  - split; [intros _; exists s2; reflexivity|intros _; destruct s2; reflexivity].
  - destruct s2 as [|c2 s2]; cbn [String.prefix].
    + split; [discriminate|]. intros [r H]. rewrite string_append_cons in H.
      discriminate H.
    + destruct (ascii_dec c c2) as [->|Hc].
      * rewrite IH. split; intros [r H]; exists r.
        -- rewrite string_append_cons, H. reflexivity.
        -- rewrite string_append_cons in H. injection H as H. exact H.
      * split; [discriminate|]. intros [r H].
        rewrite string_append_cons in H. injection H as H _. congruence.
Qed.

Lemma cut_after_last_sep_app (p : string) :
  (Posix.cut_after_last_sep p).1 ++ (Posix.cut_after_last_sep p).2 = p.
Proof.
  induction p as [|c p IH]; [reflexivity|]. cbn [Posix.cut_after_last_sep].
  destruct (Posix.cut_after_last_sep p) as [head tail]. cbn [fst snd] in IH.
  destruct head as [|h head].
  - rewrite string_append_nil_l in IH. subst p.
    destruct (Ascii.eqb_spec c "/") as [->|_]; reflexivity.
  - cbn [fst snd]. rewrite string_append_cons, IH. reflexivity.
Qed.

Lemma rstrip_sep_prefix (s : string) :
  exists r : string, s = Posix.rstrip_sep s ++ r.
Proof.
  induction s as [|c s IH]; [exists EmptyString; reflexivity|].
  destruct IH as [r IH]. cbn [Posix.rstrip_sep].
  destruct (Posix.rstrip_sep s) as [|c' stripped].
  - rewrite string_append_nil_l in IH. subst r.
    destruct (Ascii.eqb c "/").
    + exists (String c s). reflexivity.
    + exists s. reflexivity.
  - exists r. rewrite string_append_cons, <- IH. reflexivity.
Qed.

(** The head of a path is a prefix of the path. *)
Lemma path_split_head_prefix (p : string) :
  exists r : string, p = (Posix.path_split p).1 ++ r.
Proof.
  unfold Posix.path_split.
  pose proof (cut_after_last_sep_app p) as Hcut.
  destruct (Posix.cut_after_last_sep p) as [head tail]. cbn [fst snd] in Hcut.
  destruct (rstrip_sep_prefix head) as [r Hr].
  destruct (Posix.rstrip_sep head) as [|c stripped]; cbn [fst].
  - exists tail. symmetry. exact Hcut.
  - exists (r ++ tail). rewrite <- string_append_assoc, <- Hr. symmetry.
    exact Hcut.
Qed.

Lemma makedirs_created_O (d : gmap string node) (name : string) :
  makedirs_created 0 d name = [name].
Proof. reflexivity. Qed.

Lemma makedirs_created_S (d : gmap string node) (k : nat) (name : string) :
  makedirs_created (S k) d name
  = let '(head, tail) := Posix.path_split name in
    let '(head, tail) :=
      if String.eqb tail EmptyString then Posix.path_split head
      else (head, tail) in
    if negb (String.eqb head EmptyString)
       && negb (String.eqb tail EmptyString)
       && negb (exists_on d head)
    then (makedirs_created k d head ++ [name])%list
    else [name].
Proof. reflexivity. Qed.

(** Every directory that [makedirs] makes for a name is a prefix of the
    name; the name is the last of them. *)
Lemma makedirs_created_prefix (d : gmap string node) :
  forall (fuel : nat) (name p : string),
    p ∈ makedirs_created fuel d name -> exists r : string, name = p ++ r.
Proof.
  induction fuel as [|fuel IH]; intros name p Hin;
    rewrite ?makedirs_created_O, ?makedirs_created_S in Hin.
  - apply list_elem_of_singleton in Hin. subst p. exists EmptyString.
    symmetry. apply string_append_nil_r.
  - destruct (path_split_head_prefix name) as [r1 H1].
    destruct (Posix.path_split name) as [head tail]. cbn [fst] in H1.
    assert (Hhead : forall head' tail' : string,
               (if String.eqb tail EmptyString then Posix.path_split head
                else (head, tail)) = (head', tail') ->
               exists r : string, name = head' ++ r).
    { intros head' tail' E. destruct (String.eqb tail EmptyString).
      - destruct (path_split_head_prefix head) as [r2 H2].
        rewrite E in H2. cbn [fst] in H2. exists (r2 ++ r1).
        rewrite <- string_append_assoc, <- H2. exact H1.
      - injection E as <- <-. exists r1. exact H1. }
    destruct (if String.eqb tail EmptyString then Posix.path_split head
              else (head, tail)) as [head' tail'].
    destruct (Hhead head' tail' eq_refl) as [r Hr].
    destruct (_ && _).
    + apply elem_of_app in Hin. destruct Hin as [Hin|Hin].
      * apply IH in Hin. destruct Hin as [r' Hr']. exists (r' ++ r).
        rewrite <- string_append_assoc, <- Hr'. exact Hr.
      * apply list_elem_of_singleton in Hin. subst p. exists EmptyString.
        symmetry. apply string_append_nil_r.
    + apply list_elem_of_singleton in Hin. subst p. exists EmptyString.
      symmetry. apply string_append_nil_r.
Qed.

Lemma makedirs_created_name (d : gmap string node) (fuel : nat)
    (name : string) :
  name ∈ makedirs_created fuel d name.
Proof.
  destruct fuel as [|fuel];
    rewrite ?makedirs_created_O, ?makedirs_created_S; [list_member|].
  destruct (Posix.path_split name) as [head tail].
  destruct (if String.eqb tail EmptyString then Posix.path_split head
            else (head, tail)) as [head' tail'].
  destruct (_ && _); [|list_member].
  apply elem_of_app. right. list_member.
Qed.

(** [makedirs] makes only what does not exist. *)
Lemma makedirs_created_absent (d : gmap string node) :
  forall (fuel : nat) (name p : string),
    exists_on d name = false ->
    p ∈ makedirs_created fuel d name -> exists_on d p = false.
Proof.
  induction fuel as [|fuel IH]; intros name p Hname Hin;
    rewrite ?makedirs_created_O, ?makedirs_created_S in Hin.
  - apply list_elem_of_singleton in Hin. subst p. exact Hname.
  - destruct (Posix.path_split name) as [head tail].
    destruct (if String.eqb tail EmptyString then Posix.path_split head
              else (head, tail)) as [head' tail'].
    destruct (negb (String.eqb head' EmptyString)
              && negb (String.eqb tail' EmptyString)
              && negb (exists_on d head')) eqn:Hcond.
    + apply elem_of_app in Hin. destruct Hin as [Hin|Hin].
      * apply (IH head' p); [|exact Hin].
        apply andb_true_iff in Hcond. destruct Hcond as [_ Hcond].
        apply negb_true_iff in Hcond. exact Hcond.
      * apply list_elem_of_singleton in Hin. subst p. exact Hname.
    + apply list_elem_of_singleton in Hin. subst p. exact Hname.
Qed.

Lemma lookup_create_dirs (paths : list string) (d : gmap string node)
    (q : string) :
  create_dirs paths d !! q
  = if decide (q ∈ paths) then Some Dir else d !! q.
Proof.
  induction paths as [|p paths IH]; cbn [create_dirs foldr].
  - destruct (decide (q ∈ [])) as [H|_]; [|reflexivity].
    apply elem_of_nil in H. contradiction.
  - fold (create_dirs paths d). destruct (decide (p = q)) as [->|Hne].
    + rewrite lookup_insert_eq.
      destruct (decide (q ∈ q :: paths)) as [_|H]; [reflexivity|].
      exfalso. apply H. list_member.
    + rewrite lookup_insert_ne by exact Hne. rewrite IH.
      destruct (decide (q ∈ paths)) as [Hin|Hout];
        destruct (decide (q ∈ p :: paths)) as [Hin'|Hout']; try reflexivity.
      * exfalso. apply Hout'. apply list_elem_of_further. exact Hin.
      * exfalso. apply elem_of_cons in Hin'. destruct Hin' as [E|Hin'];
          [symmetry in E|]; contradiction.
Qed.

(** The document's path is longer than the path of its directory. *)
Lemma document_path_longer (tex_dir t : string) :
  String.length tex_dir
  < String.length (Posix.path_join tex_dir (tex_hash t) ++ ".tex").
Proof.
  rewrite string_length_append.
  destruct (path_join_tex_hash tex_dir t) as [H|H]; rewrite H;
    rewrite !string_length_append; simpl; lia.
Qed.

(** What [generate_tex_file] finds after it has made the directory: the
    directory exists, what existed is kept, and what is new is a directory
    whose path is a prefix of the directory's path. *)
Lemma after_makedirs_dir (config : Config) (s : state) :
  exists_on (disk (after_makedirs config s)) (config_tex_dir config) = true.
Proof.
  unfold after_makedirs.
  destruct (exists_on (disk s) (config_tex_dir config)) eqn:E; [exact E|].
  cbn [disk]. apply exists_on_true. rewrite lookup_create_dirs.
  destruct (decide (config_tex_dir config ∈ _)) as [_|H]; [eauto|].
  exfalso. apply H. apply makedirs_created_name.
Qed.

Lemma after_makedirs_lookup (config : Config) (s : state) (q : string) :
  disk (after_makedirs config s) !! q = disk s !! q
  \/ (disk s !! q = None
      /\ disk (after_makedirs config s) !! q = Some Dir
      /\ String.prefix q (config_tex_dir config) = true
      /\ exists_on (disk s) (config_tex_dir config) = false).
Proof.
  unfold after_makedirs.
  destruct (exists_on (disk s) (config_tex_dir config)) eqn:E;
    [left; reflexivity|].
  cbn [disk]. rewrite lookup_create_dirs.
  destruct (decide (q ∈ _)) as [Hin|_]; [right|left; reflexivity].
  split; [|split; [reflexivity|split; [|reflexivity]]].
  - pose proof (makedirs_created_absent _ _ _ _ E Hin) as Habs.
    destruct (disk s !! q) eqn:Hq; [|reflexivity].
    assert (Hex : exists_on (disk s) q = true)
      by (apply exists_on_true; rewrite Hq; eauto).
    congruence.
  - apply prefix_iff. apply makedirs_created_prefix in Hin.
    destruct Hin as [r Hr]. exists r. exact Hr.
Qed.

Lemma after_makedirs_longer (config : Config) (s : state) (q : string) :
  String.length (config_tex_dir config) < String.length q ->
  disk (after_makedirs config s) !! q = disk s !! q.
Proof.
  intros Hlen.
  destruct (after_makedirs_lookup config s q) as [H|(_ & _ & Hp & _)];
    [exact H|].
  apply prefix_iff in Hp. destruct Hp as [r Hr].
  apply (f_equal String.length) in Hr. rewrite string_length_append in Hr.
  lia.
Qed.

(** ** The document generator *)

(** Unfolding of the monad's operations in a goal. *)
Ltac run_monad :=
  unfold mbind, M_bind, bind, mret, M_ret, ret, raise, lift, path_exists,
    makedirs, write_file, logger_info, logger_error, emit; simpl.

Lemma generate_tex_file_run (config : Config) (expression : string)
    (environment : option string) (tex_template : option TexTemplate)
    (s : state) :
  let output :=
    render expression environment
           (default (config_tex_template config) tex_template) in
  let result :=
    Posix.path_join (config_tex_dir config) (tex_hash output) ++ ".tex" in
  generate_tex_file config expression environment tex_template s
  = (Ok result, after_write expression result output (after_makedirs config s)).
Proof.
  intros output result.
  unfold generate_tex_file, after_write, after_makedirs. run_monad.
  fold output. fold result.
  destruct (exists_on (disk s) (config_tex_dir config)); simpl;
    destruct (exists_on _ result); reflexivity.
Qed.

(** C7. For every expression, environment, template and state,
    [generate_tex_file] returns a path and never raises.  The document text
    is the template's [get_texcode_for_expression_in_env] of the expression
    and the environment when an environment is given, and its
    [get_texcode_for_expression] of the expression when none is; the path is
    [os.path.join(tex_dir, tex_hash(text)) + ".tex"].  The same path comes
    back whether the file was already there (its node is left as it was) or
    not (it then holds the document text). *)
Theorem generate_tex_file_path :
  forall (config : Config) (expression : string)
         (environment : option string) (tex_template : option TexTemplate)
         (s : state),
    let template := default (config_tex_template config) tex_template in
    let output :=
      match environment with
      | Some env => get_texcode_for_expression_in_env template expression env
      | None => get_texcode_for_expression template expression
      end in
    let result :=
      Posix.path_join (config_tex_dir config) (tex_hash output) ++ ".tex" in
    exists s' : state,
      generate_tex_file config expression environment tex_template s
      = (Ok result, s')
      /\ (exists_on (disk s) result = true ->
          disk s' !! result = disk s !! result
          /\ forall content : string,
               WriteFile result content ∉ drop (length (events s)) (events s'))
      /\ (exists_on (disk s) result = false ->
          disk s' !! result = Some (File output)
          /\ WriteFile result output ∈ drop (length (events s)) (events s')).
Proof.
  intros config expression environment tex_template s template output result.
  eexists. split; [apply generate_tex_file_run|].
  change (render expression environment
            (default (config_tex_template config) tex_template)) with output.
  fold result.
  assert (Hkeep : disk (after_makedirs config s) !! result
                  = disk s !! result).
  { apply after_makedirs_longer. apply document_path_longer. }
  assert (Hdir : exists_on (disk (after_makedirs config s)) result
                 = exists_on (disk s) result).
  { unfold exists_on. rewrite Hkeep. reflexivity. }
  unfold after_write. rewrite Hdir. split.
  - intros Hex. rewrite Hex. split; [exact Hkeep|].
    intros content. unfold after_makedirs.
    destruct (exists_on (disk s) (config_tex_dir config)); cbn [events].
    + rewrite drop_all. apply not_elem_of_nil.
    + rewrite drop_app_length.
      rewrite elem_of_cons, elem_of_nil. intros [H|[]]. discriminate H.
  - intros Hex. rewrite Hex. simpl. rewrite lookup_insert_eq.
    split; [reflexivity|].
    unfold after_makedirs.
    destruct (exists_on (disk s) (config_tex_dir config)); simpl.
    + rewrite <- app_assoc, drop_app_length. list_member.
    + rewrite <- !app_assoc, drop_app_length. list_member.
Qed.

(** ** The compiler invoker *)

(** A cache hit: the expected output is on disk, and [compile_tex] returns
    its path and leaves the state as it is. *)
Lemma compile_tex_cached (config : Config)
    (os_system : string -> gmap string node -> Z * gmap string node)
    (tex_file tex_compiler output_format : string) (s : state) :
  exists_on (disk s) (compiled_path tex_file output_format) = true ->
  compile_tex config os_system tex_file tex_compiler output_format s
  = (Ok (compiled_path tex_file output_format), s).
Proof.
  intros Hex. unfold compile_tex. run_monad. rewrite Hex. reflexivity.
Qed.

(** A cache miss with a command that cannot be built: the error of the
    construction comes out and nothing was run. *)
Lemma compile_tex_no_command (config : Config)
    (os_system : string -> gmap string node -> Z * gmap string node)
    (tex_file tex_compiler output_format : string) (s : state) (e : error) :
  exists_on (disk s) (compiled_path tex_file output_format) = false ->
  tex_compilation_command tex_compiler output_format
    (Posix.as_posix tex_file) (Posix.as_posix (config_tex_dir config))
  = Raise e ->
  compile_tex config os_system tex_file tex_compiler output_format s
  = (Raise e, s).
Proof.
  intros Hex Hcmd. unfold compile_tex. run_monad. rewrite Hex. simpl.
  rewrite Hcmd. reflexivity.
Qed.

(** A cache miss and a compiler that returns status 0: the expected path is
    returned, whether the compiler wrote it or not. *)
Lemma compile_tex_success (config : Config)
    (os_system : string -> gmap string node -> Z * gmap string node)
    (tex_file tex_compiler output_format command : string) (s : state)
    (d : gmap string node) :
  exists_on (disk s) (compiled_path tex_file output_format) = false ->
  tex_compilation_command tex_compiler output_format
    (Posix.as_posix tex_file) (Posix.as_posix (config_tex_dir config))
  = Ok command ->
  os_system command (disk s) = (0%Z, d) ->
  compile_tex config os_system tex_file tex_compiler output_format s
  = (Ok (compiled_path tex_file output_format),
     State d (events s ++ [System command])).
Proof.
  intros Hex Hcmd Hsys. unfold compile_tex. run_monad. rewrite Hex. simpl.
  rewrite Hcmd. unfold system. rewrite Hsys. reflexivity.
Qed.

(** C5. When the expected output is not on disk, the command is built and
    run, [os.system] returns a status other than 0 and nothing exists at the
    path [log_file] (the posix form of the document path with [.tex]
    replaced by [.log]), [compile_tex] raises [ToolchainMissing]; the only
    event of the call is the run of the command, so no log was opened and no
    line was reported. *)
Theorem compile_tex_missing_log :
  forall (config : Config)
         (os_system : string -> gmap string node -> Z * gmap string node)
         (tex_file tex_compiler output_format command : string)
         (s : state) (exit_code : Z) (d : gmap string node),
    exists_on (disk s) (compiled_path tex_file output_format) = false ->
    tex_compilation_command tex_compiler output_format
      (Posix.as_posix tex_file) (Posix.as_posix (config_tex_dir config))
    = Ok command ->
    os_system command (disk s) = (exit_code, d) ->
    exit_code <> 0%Z ->
    exists_on d (log_path tex_file) = false ->
    exists s' : state,
      compile_tex config os_system tex_file tex_compiler output_format s
      = (Raise (ToolchainMissing tex_compiler), s')
      /\ disk s' = d
      /\ events s' = (events s ++ [System command])%list
      /\ forall path : string,
           OpenRead path ∉ drop (length (events s)) (events s').
Proof.
  intros config os_system tex_file tex_compiler output_format command s
         exit_code d Hex Hcmd Hsys Hcode Hlog.
  exists (State d (events s ++ [System command])).
  split; [|split; [reflexivity|split; [reflexivity|]]].
  - unfold compile_tex. run_monad. rewrite Hex. simpl. rewrite Hcmd.
    unfold system. rewrite Hsys.
    destruct (Z.eqb_spec exit_code 0) as [E|_]; [contradiction|]. simpl.
    unfold log_path in Hlog. rewrite Hlog. reflexivity.
  - intros path. simpl. rewrite drop_app_length.
    rewrite elem_of_cons, elem_of_nil. intros [H|[]]. discriminate H.
Qed.

(** C10. When the expected output path exists, [compile_tex] returns it
    without error and without any effect, for every compiler name and every
    output format, recognized or not.  Hence a call that raises
    [UnknownCompiler] or [UnsupportedFormat] started from a state in which
    the expected output did not exist; and on such a state those errors of
    the command construction do come out. *)
Theorem compile_tex_cache_hit_skips_validation :
  forall (config : Config)
         (os_system : string -> gmap string node -> Z * gmap string node)
         (tex_file tex_compiler output_format : string) (s : state),
    (exists_on (disk s) (compiled_path tex_file output_format) = true ->
     compile_tex config os_system tex_file tex_compiler output_format s
     = (Ok (compiled_path tex_file output_format), s))
    /\ (forall (e : error) (s' : state),
           compile_tex config os_system tex_file tex_compiler output_format s
           = (Raise e, s') ->
           e = UnsupportedFormat \/ e = UnknownCompiler tex_compiler ->
           exists_on (disk s) (compiled_path tex_file output_format) = false)
    /\ (forall e : error,
           exists_on (disk s) (compiled_path tex_file output_format) = false ->
           tex_compilation_command tex_compiler output_format
             (Posix.as_posix tex_file)
             (Posix.as_posix (config_tex_dir config))
           = Raise e ->
           compile_tex config os_system tex_file tex_compiler output_format s
           = (Raise e, s)).
Proof.
  intros config os_system tex_file tex_compiler output_format s.
  split; [|split].
  - apply compile_tex_cached.
  - intros e s' Hrun _.
    destruct (exists_on (disk s) (compiled_path tex_file output_format)) eqn:Hex;
      [|reflexivity].
    rewrite compile_tex_cached in Hrun by exact Hex. discriminate Hrun.
  - intros e. apply compile_tex_no_command.
Qed.

(** ** The vector converter *)

Lemma convert_to_svg_cached
    (os_system : string -> gmap string node -> Z * gmap string node)
    (dvi_file extension : string) (page : Z) (s : state) :
  exists_on (disk s) (svg_path dvi_file extension) = true ->
  convert_to_svg os_system dvi_file extension page s
  = (Ok (svg_path dvi_file extension), s).
Proof.
  intros Hex. unfold convert_to_svg. run_monad. rewrite Hex. simpl.
  rewrite Hex. reflexivity.
Qed.

(** C6. When the SVG path exists, [convert_to_svg] returns it and runs
    nothing.  When it does not, the converter is run; whatever status
    [exit_code] it returns, the call returns the SVG path if the path exists
    on the disk [d] that the run leaves, and raises [ConversionUnsupported]
    if it does not. *)
Theorem convert_to_svg_checks_existence :
  forall (os_system : string -> gmap string node -> Z * gmap string node)
         (dvi_file extension : string) (page : Z) (s : state),
    let result := svg_path dvi_file extension in
    let command :=
      Str.join " " (dvisvgm_commands (Posix.as_posix dvi_file) extension
                                     result page) in
    (exists_on (disk s) result = true ->
     convert_to_svg os_system dvi_file extension page s = (Ok result, s))
    /\ (forall (exit_code : Z) (d : gmap string node),
           exists_on (disk s) result = false ->
           os_system command (disk s) = (exit_code, d) ->
           let s' := State d (events s ++ [System command]) in
           (exists_on d result = false ->
            convert_to_svg os_system dvi_file extension page s
            = (Raise (ConversionUnsupported extension), s'))
           /\ (exists_on d result = true ->
               convert_to_svg os_system dvi_file extension page s
               = (Ok result, s'))).
Proof.
  intros os_system dvi_file extension page s result command. split.
  - apply convert_to_svg_cached.
  - intros exit_code d Hex Hsys s'.
    assert (Hrun : forall b : bool,
               exists_on d result = b ->
               convert_to_svg os_system dvi_file extension page s
               = (if b then Ok result
                  else Raise (ConversionUnsupported extension), s')).
    { intros b Hb. unfold convert_to_svg. run_monad. fold result.
      rewrite Hex. simpl. unfold system. fold command. rewrite Hsys. simpl.
      rewrite Hb. destruct b; reflexivity. }
    split; intros Hd; apply (Hrun _ Hd).
Qed.

(** ** What the stages leave on disk *)

(** After [generate_tex_file] the directory and the document exist. *)
Lemma generate_tex_file_leaves (config : Config) (expression : string)
    (environment : option string) (tex_template : option TexTemplate)
    (s s' : state) (tex_file : string) :
  generate_tex_file config expression environment tex_template s
  = (Ok tex_file, s') ->
  tex_file
  = Posix.path_join (config_tex_dir config)
      (tex_hash (render expression environment
                   (default (config_tex_template config) tex_template)))
    ++ ".tex"
  /\ exists_on (disk s') (config_tex_dir config) = true
  /\ exists_on (disk s') tex_file = true.
Proof.
  rewrite generate_tex_file_run. intros H. injection H as <- <-.
  split; [reflexivity|].
  set (result := Posix.path_join _ _ ++ ".tex").
  pose proof (after_makedirs_dir config s) as Hdir.
  unfold after_write.
  destruct (exists_on (disk (after_makedirs config s)) result) eqn:E.
  - split; [exact Hdir|exact E].
  - simpl. split; [|apply exists_on_insert].
    apply exists_on_insert_keeps. exact Hdir.
Qed.

(** A call of [compile_tex] that returns, returns the expected path; if the
    commands keep paths, so does the call. *)
Lemma compile_tex_returns (config : Config)
    (os_system : string -> gmap string node -> Z * gmap string node)
    (tex_file tex_compiler output_format : string) (s s' : state)
    (dvi_file : string) :
  compile_tex config os_system tex_file tex_compiler output_format s
  = (Ok dvi_file, s') ->
  dvi_file = compiled_path tex_file output_format
  /\ (keeps_paths os_system ->
      forall path : string,
        exists_on (disk s) path = true -> exists_on (disk s') path = true).
Proof.
  unfold compile_tex. run_monad.
  destruct (exists_on (disk s) (compiled_path tex_file output_format)); simpl.
  - intros H. injection H as <- <-. auto.
  - destruct (tex_compilation_command _ _ _ _) as [command|e];
      [|discriminate].
    unfold system.
    pose proof (fun K : keeps_paths os_system => K command (disk s)) as Hkeep.
    destruct (os_system command (disk s)) as [exit_code d].
    destruct (exit_code =? 0)%Z; simpl.
    + intros H. injection H as <- <-. split; [reflexivity|].
      intros K path. apply (Hkeep K).
    + intros H. exfalso. revert H.
      match goal with
      | |- context [match ?m ?st with _ => _ end] =>
          destruct (m st) as [[[] | e] st'] eqn:Hm
      end; [|discriminate].
      match goal with
      | |- context [match ?m ?st with _ => _ end] =>
          destruct (m st) as [[log | e] st''] eqn:Hr
      end; [|discriminate].
      match goal with
      | |- context [match ?m ?st with _ => _ end] =>
          destruct (m st) as [[[] | e] st3] eqn:Hp
      end; discriminate.
Qed.

(** A call of [convert_to_svg] that returns, returns the SVG path, and the
    path exists; if the commands keep paths, so does the call. *)
Lemma convert_to_svg_returns
    (os_system : string -> gmap string node -> Z * gmap string node)
    (dvi_file extension : string) (page : Z) (s s' : state) (svg : string) :
  convert_to_svg os_system dvi_file extension page s = (Ok svg, s') ->
  svg = svg_path dvi_file extension
  /\ exists_on (disk s') svg = true
  /\ (keeps_paths os_system ->
      forall path : string,
        exists_on (disk s) path = true -> exists_on (disk s') path = true).
Proof.
  unfold convert_to_svg. run_monad.
  destruct (exists_on (disk s) (svg_path dvi_file extension)) eqn:Hex; simpl.
  - rewrite Hex. simpl. intros H. injection H as <- <-. auto.
  - unfold system.
    match goal with
    | |- context [os_system ?c (disk s)] =>
        pose proof (fun K : keeps_paths os_system => K c (disk s)) as Hkeep;
        destruct (os_system c (disk s)) as [exit_code d]
    end.
    simpl.
    destruct (exists_on d (svg_path dvi_file extension)) eqn:Hd; simpl;
      [|discriminate].
    intros H. injection H as <- <-. split; [reflexivity|].
    split; [exact Hd|]. intros K path. apply (Hkeep K).
Qed.

(** ** The cached pipeline *)

(** The whole pipeline on a state that holds the three artifacts. *)
Lemma tex_to_svg_file_cached (config : Config)
    (os_system : string -> gmap string node -> Z * gmap string node)
    (expression : string) (environment : option string)
    (tex_template : option TexTemplate) (s : state) :
  let template := default (config_tex_template config) tex_template in
  let tex_file :=
    Posix.path_join (config_tex_dir config)
      (tex_hash (render expression environment template)) ++ ".tex" in
  let dvi_file := compiled_path tex_file (output_format template) in
  let svg := svg_path dvi_file (output_format template) in
  exists_on (disk s) (config_tex_dir config) = true ->
  exists_on (disk s) tex_file = true ->
  exists_on (disk s) dvi_file = true ->
  exists_on (disk s) svg = true ->
  tex_to_svg_file config os_system expression environment tex_template s
  = (Ok svg, s).
Proof.
  intros template tex_file dvi_file svg Hdir Htex Hdvi Hsvg.
  unfold tex_to_svg_file. fold template.
  unfold mbind, M_bind, bind.
  rewrite generate_tex_file_run.
  change (default (config_tex_template config) (Some template)) with template.
  fold tex_file.
  unfold after_makedirs. rewrite Hdir. unfold after_write. rewrite Htex.
  rewrite compile_tex_cached by exact Hdvi.
  apply convert_to_svg_cached. exact Hsvg.
Qed.

(** C1. A stage whose artifact exists at its path returns that path and
    leaves the state as it is: it runs no command, writes no file and logs
    nothing.  This holds for the generator (the artifact's directory
    existing with it), for the compiler and for the converter, and for the
    whole pipeline when the three artifacts exist.  After a call of the
    pipeline that returned, with commands that remove no path and the
    compiled output on disk, a second call with the same arguments returns
    the same SVG path and leaves the state as it is. *)
Theorem cached_pipeline_idempotent :
  forall (config : Config)
         (os_system : string -> gmap string node -> Z * gmap string node)
         (expression : string) (environment : option string)
         (tex_template : option TexTemplate),
    let template := default (config_tex_template config) tex_template in
    let tex_file :=
      Posix.path_join (config_tex_dir config)
        (tex_hash (render expression environment template)) ++ ".tex" in
    let dvi_file := compiled_path tex_file (output_format template) in
    let svg := svg_path dvi_file (output_format template) in
    (forall s : state,
        exists_on (disk s) (config_tex_dir config) = true ->
        exists_on (disk s) tex_file = true ->
        generate_tex_file config expression environment tex_template s
        = (Ok tex_file, s))
    /\ (forall s : state,
           exists_on (disk s) dvi_file = true ->
           compile_tex config os_system tex_file (tex_compiler template)
                       (output_format template) s
           = (Ok dvi_file, s))
    /\ (forall s : state,
           exists_on (disk s) svg = true ->
           convert_to_svg os_system dvi_file (output_format template) 1 s
           = (Ok svg, s))
    /\ (forall s : state,
           exists_on (disk s) (config_tex_dir config) = true ->
           exists_on (disk s) tex_file = true ->
           exists_on (disk s) dvi_file = true ->
           exists_on (disk s) svg = true ->
           tex_to_svg_file config os_system expression environment
                           tex_template s
           = (Ok svg, s))
    /\ (forall (s s1 : state) (first : string),
           keeps_paths os_system ->
           tex_to_svg_file config os_system expression environment
                           tex_template s
           = (Ok first, s1) ->
           exists_on (disk s1) dvi_file = true ->
           first = svg
           /\ tex_to_svg_file config os_system expression environment
                              tex_template s1
              = (Ok svg, s1)).
Proof.
  intros config os_system expression environment tex_template
         template tex_file dvi_file svg.
  split; [|split; [|split; [|split]]].
  - intros s Hdir Htex. rewrite generate_tex_file_run.
    fold template. fold tex_file.
    unfold after_makedirs. rewrite Hdir. unfold after_write. rewrite Htex.
    reflexivity.
  - intros s. apply compile_tex_cached.
  - intros s. apply convert_to_svg_cached.
  - intros s. apply tex_to_svg_file_cached.
  - intros s s1 first Hkeep Hrun Hdvi.
    unfold tex_to_svg_file in Hrun. fold template in Hrun.
    unfold mbind, M_bind, bind in Hrun.
    destruct (generate_tex_file config expression environment (Some template) s)
      as [[tex_file'|e] sa] eqn:Hgen; [|discriminate Hrun].
    destruct (compile_tex config os_system tex_file' (tex_compiler template)
                (output_format template) sa)
      as [[dvi_file'|e] sb] eqn:Hcomp; [|discriminate Hrun].
    apply generate_tex_file_leaves in Hgen.
    change (default (config_tex_template config) (Some template))
      with template in Hgen.
    fold tex_file in Hgen. destruct Hgen as (-> & Hdir_a & Htex_a).
    apply compile_tex_returns in Hcomp.
    fold dvi_file in Hcomp. destruct Hcomp as (-> & Hkeep_b).
    apply convert_to_svg_returns in Hrun.
    fold svg in Hrun. destruct Hrun as (-> & Hsvg & Hkeep_1).
    split; [reflexivity|].
    apply tex_to_svg_file_cached; fold template; fold tex_file;
      fold dvi_file; fold svg; auto.
Qed.

(** ** The statements at sample inputs *)

Example sample_paths :
  sample_tex_file = "media/Tex/" ++ tex_hash (get_texcode_for_expression sample_template "x^2") ++ ".tex"
  /\ sample_dvi_file = Str.take (String.length sample_tex_file - 4) sample_tex_file ++ ".dvi"
  /\ sample_svg_file = Str.take (String.length sample_tex_file - 4) sample_tex_file ++ ".svg".
Proof. repeat split; vm_compute; reflexivity. Qed.

Lemma generate_tex_file_path_witness :
  exists s' : state,
    generate_tex_file sample_config "x^2" None None empty_state
    = (Ok sample_tex_file, s')
    /\ disk s' !! sample_tex_file
       = Some (File (get_texcode_for_expression sample_template "x^2")).
Proof.
  destruct (generate_tex_file_path sample_config "x^2" None None empty_state)
    as (s' & Hrun & _ & Hnew).
  exists s'. split.
  - exact Hrun.
  - apply Hnew. vm_compute. reflexivity.
Defined.

Lemma compile_tex_missing_log_witness :
  exists s' : state,
    compile_tex sample_config no_toolchain sample_tex_file "latex" ".dvi"
                empty_state
    = (Raise (ToolchainMissing "latex"), s')
    /\ disk s' = ∅.
Proof.
  destruct (compile_tex_missing_log sample_config no_toolchain
              sample_tex_file "latex" ".dvi"
              (Str.join " "
                 [ "latex"; "-interaction=batchmode";
                   "-output-format=" ++ Str.quoted "dvi"; "-halt-on-error";
                   "-output-directory=" ++ Str.quoted "media/Tex";
                   Str.quoted sample_tex_file; ">"; Posix.os_devnull ])
              empty_state 32512%Z ∅)
    as (s' & Hrun & Hdisk & _).
  - vm_compute. reflexivity.
  - vm_compute. reflexivity.
  - reflexivity.
  - discriminate.
  - vm_compute. reflexivity.
  - exists s'. split; [exact Hrun|exact Hdisk].
Defined.

Lemma compile_tex_cache_hit_skips_validation_witness :
  compile_tex sample_config no_toolchain sample_tex_file "not-a-compiler"
              ".dvi" (State {[ sample_dvi_file := File "dvi" ]} [])
  = (Ok sample_dvi_file, State {[ sample_dvi_file := File "dvi" ]} [])
  /\ compile_tex sample_config no_toolchain sample_tex_file "not-a-compiler"
                 ".dvi" empty_state
     = (Raise (UnknownCompiler "not-a-compiler"), empty_state).
Proof.
  split.
  - destruct (compile_tex_cache_hit_skips_validation sample_config
                no_toolchain sample_tex_file "not-a-compiler" ".dvi"
                (State {[ sample_dvi_file := File "dvi" ]} []))
      as (Hhit & _ & _).
    apply Hhit. vm_compute. reflexivity.
  - destruct (compile_tex_cache_hit_skips_validation sample_config
                no_toolchain sample_tex_file "not-a-compiler" ".dvi"
                empty_state)
      as (_ & _ & Hmiss).
    apply Hmiss; vm_compute; reflexivity.
Defined.

Lemma convert_to_svg_checks_existence_witness :
  (exists s' : state,
      convert_to_svg silent_converter sample_dvi_file ".dvi" 1 empty_state
      = (Raise (ConversionUnsupported ".dvi"), s'))
  /\ (exists s' : state,
         convert_to_svg grumbling_converter sample_dvi_file ".dvi" 1
                        empty_state
         = (Ok sample_svg_file, s')).
Proof.
  split.
  - destruct (convert_to_svg_checks_existence silent_converter
                sample_dvi_file ".dvi" 1 empty_state) as (_ & Hmiss).
    destruct (Hmiss 0%Z ∅) as (Habsent & _).
    + vm_compute. reflexivity.
    + reflexivity.
    + eexists. apply Habsent. vm_compute. reflexivity.
  - destruct (convert_to_svg_checks_existence grumbling_converter
                sample_dvi_file ".dvi" 1 empty_state) as (_ & Hmiss).
    destruct (Hmiss 256%Z (<[sample_svg_file := File "<svg/>"]> ∅))
      as (_ & Hpresent).
    + vm_compute. reflexivity.
    + reflexivity.
    + eexists. apply Hpresent. vm_compute. reflexivity.
Defined.

Lemma working_toolchain_keeps_paths : keeps_paths working_toolchain.
Proof.
  intros command d path H. unfold working_toolchain.
  destruct (Str.startswith command "dvisvgm"); simpl;
    apply exists_on_insert_keeps; exact H.
Qed.

Lemma cached_pipeline_idempotent_witness :
  exists s1 : state,
    tex_to_svg_file sample_config working_toolchain "x^2" None None
                    empty_state
    = (Ok sample_svg_file, s1)
    /\ tex_to_svg_file sample_config working_toolchain "x^2" None None s1
       = (Ok sample_svg_file, s1).
Proof.
  destruct (tex_to_svg_file sample_config working_toolchain "x^2" None None
              empty_state) as [r s1] eqn:Hfirst.
  assert (Hr : r = Ok sample_svg_file).
  { apply (f_equal fst) in Hfirst. simpl in Hfirst. rewrite <- Hfirst.
    vm_compute. reflexivity. }
  assert (Hdvi : exists_on (disk s1) sample_dvi_file = true).
  { apply (f_equal snd) in Hfirst. simpl in Hfirst. rewrite <- Hfirst.
    vm_compute. reflexivity. }
  subst r. exists s1. split; [reflexivity|].
  destruct (cached_pipeline_idempotent sample_config working_toolchain
              "x^2" None None) as (_ & _ & _ & _ & Hsecond).
  destruct (Hsecond empty_state s1 sample_svg_file) as (_ & Hagain).
  - exact working_toolchain_keeps_paths.
  - exact Hfirst.
  - exact Hdvi.
  - exact Hagain.
Defined.

(** ** Deriving a path by replacing an extension *)

Lemma replace_from_skip_all (old new : string) :
  forall (s : string) (k : nat),
    String.length s <= k -> Str.replace_from old new k s = EmptyString.
Proof.
  induction s as [|c s IH]; intros k Hk; [reflexivity|].
  simpl in Hk. destruct k as [|k]; [lia|]. simpl. apply IH. lia.
Qed.

(** When [old] is not empty and occurs in [stem ++ old] at the end only,
    [replace] changes that occurrence and nothing else. *)
Lemma replace_suffix_only (old new : string) :
  old <> EmptyString ->
  forall stem : string,
    (forall i : nat,
        i < String.length stem ->
        String.prefix old (Str.drop i (stem ++ old)) = false) ->
    Str.replace (stem ++ old) old new = stem ++ new.
Proof.
  intros Hne. destruct old as [|a o]; [contradiction|]. clear Hne.
  unfold Str.replace.
  induction stem as [|c stem IH]; intros Hno.
  - rewrite !string_append_nil_l.
    change (Str.replace_from (String a o) new 0 (String a o))
      with (if String.prefix (String a o) (String a o)
            then new ++ Str.replace_from (String a o) new
                          (String.length (String a o) - 1) o
            else String a (Str.replace_from (String a o) new 0 o)).
    rewrite prefix_refl. rewrite replace_from_skip_all by (simpl; lia).
    apply string_append_nil_r.
  - rewrite !string_append_cons.
    change (Str.replace_from (String a o) new 0 (String c (stem ++ String a o)))
      with (if String.prefix (String a o) (String c (stem ++ String a o))
            then new ++ Str.replace_from (String a o) new
                          (String.length (String a o) - 1)
                          (stem ++ String a o)
            else String c (Str.replace_from (String a o) new 0
                             (stem ++ String a o))).
    pose proof (Hno 0) as H0. rewrite string_append_cons in H0.
    simpl Str.drop in H0. rewrite H0 by (simpl; lia).
    f_equal. apply IH. intros i Hi.
    pose proof (Hno (S i)) as HS. rewrite string_append_cons in HS.
    apply HS. simpl. lia.
Qed.

(** For a document path whose only [.tex] is its extension, the expected
    output path is the path with the extension replaced, in posix form. *)
Lemma compiled_path_extension_only (stem output_format : string) :
  (forall i : nat,
      i < String.length stem ->
      String.prefix ".tex" (Str.drop i (stem ++ ".tex")) = false) ->
  compiled_path (stem ++ ".tex") output_format
  = Posix.as_posix (stem ++ output_format).
Proof.
  intros Hno. unfold compiled_path.
  rewrite replace_suffix_only; [reflexivity|discriminate|exact Hno].
Qed.

Example compiled_path_sample :
  compiled_path "media/Tex/5b029881cc5d477a.tex" ".dvi"
  = "media/Tex/5b029881cc5d477a.dvi".
Proof. vm_compute. reflexivity. Qed.

(** C8, at the failing inputs.  In a document path with [.tex] in a
    directory name, [compile_tex] replaces that occurrence too: the expected
    output path is in another directory than the one the compiler writes to.
    [convert_to_svg] does the same with its extension.  The log file's path
    is derived the same way. *)
Theorem extension_replacement_reaches_directories :
  compiled_path "/home/ada/notes.texts/Tex/5b029881cc5d477a.tex" ".dvi"
  = "/home/ada/notes.dvits/Tex/5b029881cc5d477a.dvi"
  /\ compiled_path "/home/ada/notes.texts/Tex/5b029881cc5d477a.tex" ".dvi"
     <> "/home/ada/notes.texts/Tex/5b029881cc5d477a.dvi"
  /\ log_path "/home/ada/notes.texts/Tex/5b029881cc5d477a.tex"
     = "/home/ada/notes.logts/Tex/5b029881cc5d477a.log"
  /\ svg_path "/home/ada/plots.dvi.d/Tex/5b029881cc5d477a.dvi" ".dvi"
     = "/home/ada/plots.svg.d/Tex/5b029881cc5d477a.svg"
  /\ svg_path "/home/ada/plots.dvi.d/Tex/5b029881cc5d477a.dvi" ".dvi"
     <> "/home/ada/plots.dvi.d/Tex/5b029881cc5d477a.svg".
Proof.
  split; [vm_compute; reflexivity|].
  split; [vm_compute; discriminate|].
  split; [vm_compute; reflexivity|].
  split; [vm_compute; reflexivity|].
  vm_compute. discriminate.
Qed.

(** With the working directory [/home/ada/notes.texts/Tex] the compiler
    succeeds and writes the DVI next to the document, [compile_tex] returns a
    path in [/home/ada/notes.dvits/Tex], and the pipeline fails in the
    converter. *)
Example pipeline_fails_in_texts_directory :
  exists s' : state,
    tex_to_svg_file texts_config texts_toolchain "x^2" None None empty_state
    = (Raise (ConversionUnsupported ".dvi"), s')
    /\ exists_on (disk s')
         (Str.take (String.length texts_tex_file - 4) texts_tex_file ++ ".dvi")
       = true
    /\ exists_on (disk s') (compiled_path texts_tex_file ".dvi") = false.
Proof.
  eexists. split; [vm_compute; reflexivity|].
  split; vm_compute; reflexivity.
Qed.

(** * Further properties of the module *)

Lemma tex_hash_length (t : string) :
  String.length (tex_hash t) = 16.
Proof. rewrite tex_hash_words. reflexivity. Qed.

(** ** The scan of the log *)

Lemma log_error_pos_from_bounds (log : list string) :
  forall ind : nat,
    Forall (fun i => ind <= i < ind + length log) (log_error_pos_from ind log)
    /\ StronglySorted lt (log_error_pos_from ind log).
Proof.
  induction log as [|l log IH]; intros ind; simpl.
  - split; constructor.
  - destruct (IH (S ind)) as [Hb Hs].
    assert (Hb' : Forall (fun i => ind <= i < ind + S (length log))
                         (log_error_pos_from (S ind) log)).
    { eapply Forall_impl; [exact Hb|]. simpl. intros i Hi. lia. }
    destruct (Str.startswith l "!").
    + split.
      * constructor; [lia|exact Hb'].
      * constructor; [exact Hs|].
        eapply Forall_impl; [exact Hb|]. simpl. intros i Hi. lia.
    + split; [exact Hb'|exact Hs].
Qed.

(** X1. The positions that [compile_tex] scans are the line numbers of the
    lines that start with [!], each once, in increasing order. *)
Theorem log_error_pos_lists_error_lines :
  forall log : list string,
    (forall i : nat,
        i ∈ log_error_pos log
        <-> exists line : string,
              log !! i = Some line /\ Str.startswith line "!" = true)
    /\ StronglySorted lt (log_error_pos log)
    /\ Forall (fun i => i < length log) (log_error_pos log).
Proof.
  intros log. split; [|split].
  - intros i. apply log_error_pos_spec.
  - apply (log_error_pos_from_bounds log 0).
  - destruct (log_error_pos_from_bounds log 0) as [Hb _].
    eapply Forall_impl; [exact Hb|]. simpl. intros i Hi. lia.
Qed.

(** What the loop has seen when it ends without an exception. *)
Lemma count_printed_lines_ok (log : list string) (lineno : nat) :
  forall n p r : nat,
    count_printed_lines log lineno n p = Ok r ->
    p <= r <= p + n
    /\ (forall j : nat,
           p <= j < r ->
           exists l : string,
             log !! (lineno + j) = Some l /\ Str.startswith l "l." = false)
    /\ (r < p + n ->
        exists l : string,
          log !! (lineno + r) = Some l /\ Str.startswith l "l." = true).
Proof.
  induction n as [|n IH]; intros p r H; simpl in H.
  - injection H as <-. split; [lia|]. split; [intros j Hj; lia|lia].
  - destruct (log !! (lineno + p)) as [l|] eqn:El; [|discriminate H].
    destruct (Str.startswith l "l.") eqn:Es.
    + injection H as <-. split; [lia|]. split; [intros j Hj; lia|].
      intros _. exists l. auto.
    + apply IH in H. destruct H as (Hr & Hbefore & Hfound).
      split; [lia|]. split.
      * intros j Hj. destruct (decide (j = p)) as [->|Hne].
        -- exists l. auto.
        -- apply Hbefore. lia.
      * intros Hlt. apply Hfound. lia.
Qed.

(** What the loop has seen when it raises. *)
Lemma count_printed_lines_raise (log : list string) (lineno : nat) :
  forall (n p : nat) (e : error),
    count_printed_lines log lineno n p = Raise e ->
    e = IndexError
    /\ length log < lineno + p + n
    /\ forall (j : nat) (l : string),
         p <= j -> log !! (lineno + j) = Some l ->
         Str.startswith l "l." = false.
Proof.
  induction n as [|n IH]; intros p e H; simpl in H; [discriminate H|].
  destruct (log !! (lineno + p)) as [l|] eqn:El.
  - destruct (Str.startswith l "l.") eqn:Es; [discriminate H|].
    apply IH in H. destruct H as (He & Hlen & Hall).
    split; [exact He|]. split; [lia|].
    intros j l' Hj Hl'. destruct (decide (j = p)) as [->|Hne].
    + congruence.
    + apply (Hall j); [lia|exact Hl'].
  - injection H as <-. apply lookup_ge_None in El.
    split; [reflexivity|]. split; [lia|].
    intros j l' Hj Hl'. apply lookup_lt_Some in Hl'. lia.
Qed.

(** X2. An excerpt that is computed for a line of the log starts with that
    line, is a run of consecutive lines of the log, and has between 2 and 12
    lines; it ends with the first line after [lineno] that starts with [l.],
    or it has at least 11 lines and no line of it after the first starts
    with [l.] among its first eleven. *)
Theorem error_excerpt_shape :
  forall (log : list string) (lineno : nat) (excerpt : list string),
    error_excerpt log lineno = Ok excerpt ->
    excerpt !! 0 = log !! lineno
    /\ 2 <= length excerpt <= 12
    /\ (forall i : nat,
           i < length excerpt -> excerpt !! i = log !! (lineno + i))
    /\ ((exists l : string,
            excerpt !! (length excerpt - 1) = Some l
            /\ Str.startswith l "l." = true
            /\ forall (i : nat) (l' : string),
                 1 <= i < length excerpt - 1 -> excerpt !! i = Some l' ->
                 Str.startswith l' "l." = false)
        \/ (11 <= length excerpt
            /\ forall (i : nat) (l' : string),
                 1 <= i <= 10 -> excerpt !! i = Some l' ->
                 Str.startswith l' "l." = false)).
Proof.
  intros log lineno excerpt H. unfold error_excerpt in H.
  destruct (count_printed_lines log lineno 10 1) as [r|e] eqn:Hc;
    [|discriminate H].
  injection H as <-.
  apply count_printed_lines_ok in Hc. destruct Hc as (Hr & Hbefore & Hfound).
  assert (Hlook : forall i : nat,
             i < lineno + r + 1 - lineno ->
             slice log lineno (lineno + r + 1) !! i = log !! (lineno + i)).
  { intros i Hi. apply slice_lookup. exact Hi. }
  assert (Hlen : length (slice log lineno (lineno + r + 1))
                 = Nat.min (r + 1) (length log - lineno)).
  { rewrite slice_length. f_equal. lia. }
  assert (Hmin : 2 <= Nat.min (r + 1) (length log - lineno)).
  { destruct (decide (r < 11)) as [Hlt|Hge].
    - destruct Hfound as (l & Hl & _); [lia|].
      apply lookup_lt_Some in Hl. lia.
    - destruct (Hbefore 10) as (l & Hl & _); [lia|].
      apply lookup_lt_Some in Hl. lia. }
  split; [rewrite Hlook by lia; f_equal; lia|].
  split; [rewrite Hlen; lia|].
  split; [intros i Hi; apply Hlook; rewrite Hlen in Hi; lia|].
  destruct (decide (r < 11)) as [Hlt|Hge].
  - left. destruct Hfound as (l & Hl & Hs); [lia|].
    pose proof (lookup_lt_Some _ _ _ Hl) as Hl'.
    rewrite Hlen. replace (Nat.min (r + 1) (length log - lineno)) with (r + 1)
      by lia.
    replace (r + 1 - 1) with r by lia.
    exists l. split; [rewrite Hlook by lia; exact Hl|]. split; [exact Hs|].
    intros i l' Hi Hl2. rewrite Hlook in Hl2 by lia.
    destruct (Hbefore i) as (l3 & Hl3 & Hs3); [lia|]. congruence.
  - right. assert (r = 11) by lia. subst r.
    destruct (Hbefore 10) as (l10 & Hl10 & _); [lia|].
    apply lookup_lt_Some in Hl10.
    split; [rewrite Hlen; lia|].
    intros i l' Hi Hl2. rewrite Hlook in Hl2 by lia.
    destruct (Hbefore i) as (l3 & Hl3 & Hs3); [lia|]. congruence.
Qed.

Lemma error_excerpt_shape_witness :
  exists excerpt : list string,
    error_excerpt log_with_location 1 = Ok excerpt
    /\ excerpt !! 0 = Some ("! Undefined control sequence." ++ newline)
    /\ 2 <= length excerpt <= 12.
Proof.
  exists (take 4 (drop 1 log_with_location)).
  assert (H : error_excerpt log_with_location 1
              = Ok (take 4 (drop 1 log_with_location))) by reflexivity.
  split; [exact H|].
  destruct (error_excerpt_shape log_with_location 1 _ H)
    as (Hfirst & Hlen & _).
  split; [rewrite Hfirst; reflexivity|exact Hlen].
Defined.

(** X3. The scan for one error raises nothing but [IndexError], and it
    raises it exactly when fewer than ten lines follow the [!] line and none
    of them starts with [l.]. *)
Theorem error_excerpt_raises_iff :
  forall (log : list string) (lineno : nat),
    lineno < length log ->
    (forall e : error, error_excerpt log lineno = Raise e -> e = IndexError)
    /\ (error_excerpt log lineno = Raise IndexError
        <-> length log < lineno + 11
            /\ forall (j : nat) (l : string),
                 lineno < j -> log !! j = Some l ->
                 Str.startswith l "l." = false).
Proof.
  intros log lineno Hlineno.
  assert (Hraise : forall e : error,
             error_excerpt log lineno = Raise e ->
             e = IndexError
             /\ length log < lineno + 11
             /\ forall (j : nat) (l : string),
                  lineno < j -> log !! j = Some l ->
                  Str.startswith l "l." = false).
  { intros e H. unfold error_excerpt in H.
    destruct (count_printed_lines log lineno 10 1) as [r|e'] eqn:Hc;
      [discriminate H|].
    injection H as <-. apply count_printed_lines_raise in Hc.
    destruct Hc as (He & Hlen & Hall). split; [exact He|]. split; [lia|].
    intros j l Hj Hl. apply (Hall (j - lineno)); [lia|].
    rewrite <- Hl. f_equal. lia. }
  split.
  - intros e H. apply (Hraise e H).
  - split.
    + intros H. apply (Hraise IndexError) in H. tauto.
    + intros [Hlen Hall]. apply error_excerpt_past_end; [exact Hlineno|lia|].
      intros j l Hl. apply (Hall (lineno + (1 + j))); [lia|exact Hl].
Qed.

Lemma error_excerpt_raises_iff_witness :
  error_excerpt log_ending_with_error 1 = Raise IndexError.
Proof.
  destruct (error_excerpt_raises_iff log_ending_with_error 1) as [_ [_ H]].
  - simpl. lia.
  - apply H. split; [simpl; lia|].
    intros j l Hj Hl. apply lookup_lt_Some in Hl. simpl in Hl. lia.
Defined.

(** ** The failure path of the compiler invoker *)

Lemma logger_error_each_run (lines : list string) (s : state) :
  logger_error_each lines s
  = (Ok tt, State (disk s) (events s ++ map LogError lines)).
Proof.
  revert s. induction lines as [|line lines IH]; intros s.
  - simpl. unfold mret, M_ret, ret. rewrite app_nil_r. destruct s; reflexivity.
  - simpl. run_monad. rewrite IH. simpl. rewrite <- app_assoc. reflexivity.
Qed.

(** When every error line has its excerpt, all excerpts are logged, in the
    order of the lines. *)
Lemma report_errors_ok (log : list string) :
  forall (positions : list nat) (excerpts : list (list string)) (s : state),
    Forall2 (fun lineno excerpt => error_excerpt log lineno = Ok excerpt)
            positions excerpts ->
    report_errors log positions s
    = (Ok tt, State (disk s) (events s ++ map LogError (concat excerpts))).
Proof.
  induction positions as [|lineno positions IH]; intros excerpts s H.
  - apply Forall2_nil_inv_l in H. subst excerpts. simpl.
    unfold mret, M_ret, ret. rewrite app_nil_r. destruct s; reflexivity.
  - apply Forall2_cons_inv_l in H.
    destruct H as (excerpt & rest & He & Hrest & ->).
    simpl. unfold mbind, M_bind, bind, lift. rewrite He.
    rewrite logger_error_each_run. rewrite (IH rest) by exact Hrest.
    simpl. rewrite map_app, app_assoc. reflexivity.
Qed.

(** When some error line has no excerpt, the report raises [IndexError];
    the disk is not touched. *)
Lemma report_errors_raise (log : list string) :
  forall (positions : list nat) (s : state),
    Exists (fun lineno => error_excerpt log lineno = Raise IndexError)
           positions ->
    exists s' : state,
      report_errors log positions s = (Raise IndexError, s')
      /\ disk s' = disk s.
Proof.
  induction positions as [|lineno positions IH]; intros s H.
  - apply Exists_nil in H. contradiction.
  - simpl. unfold mbind, M_bind, bind, lift.
    destruct (error_excerpt log lineno) as [excerpt|e] eqn:He.
    + rewrite logger_error_each_run.
      apply Exists_cons in H. destruct H as [H|H]; [congruence|].
      destruct (IH (State (disk s) (events s ++ map LogError excerpt)) H)
        as (s' & Hrun & Hdisk).
      exists s'. split; [exact Hrun|exact Hdisk].
    + exists s. split; [|reflexivity].
      assert (e = IndexError) as ->; [|reflexivity].
      unfold error_excerpt in He.
      destruct (count_printed_lines log lineno 10 1) eqn:Hc; [discriminate|].
      injection He as <-. apply count_printed_lines_raise in Hc. tauto.
Qed.

(** The state after the failed run of the compiler and the opening of the
    log. *)
Lemma compile_tex_failed_run (config : Config)
    (os_system : string -> gmap string node -> Z * gmap string node)
    (tex_file tex_compiler output_format command : string) (s : state)
    (exit_code : Z) (d : gmap string node) (log : list string) :
  exists_on (disk s) (compiled_path tex_file output_format) = false ->
  tex_compilation_command tex_compiler output_format
    (Posix.as_posix tex_file) (Posix.as_posix (config_tex_dir config))
  = Ok command ->
  os_system command (disk s) = (exit_code, d) ->
  exit_code <> 0%Z ->
  log_lines d (log_path tex_file) = Some log ->
  compile_tex config os_system tex_file tex_compiler output_format s
  = match
      (match log_error_pos log with
       | [] => mret tt
       | _ :: _ =>
           logger_error ("LaTeX compilation error! " ++ tex_compiler
                         ++ " reports:") ;;
           report_errors log (log_error_pos log)
       end)
        (State d ((events s ++ [System command])
                    ++ [OpenRead (log_path tex_file)]))
    with
    | (Ok _, s') =>
        (Raise (CompilationError tex_compiler (Str.drop 1 output_format)
                                 (log_path tex_file)), s')
    | (Raise e, s') => (Raise e, s')
    end.
Proof.
  intros Hex Hcmd Hsys Hcode Hlog.
  unfold compile_tex. unfold mbind at 1 2 3 4 5 6. unfold M_bind, bind.
  unfold path_exists at 1. rewrite Hex. cbn [negb].
  unfold lift. rewrite Hcmd. unfold system. rewrite Hsys.
  destruct (Z.eqb_spec exit_code 0) as [E|_]; [contradiction|]. cbn [negb].
  unfold path_exists. cbn [disk].
  fold (log_path tex_file).
  assert (Hexl : exists_on d (log_path tex_file) = true).
  { apply exists_on_true. unfold log_lines in Hlog.
    destruct (d !! log_path tex_file); [eauto|discriminate]. }
  rewrite Hexl. cbn [negb]. unfold mret at 1. unfold M_ret, ret.
  unfold readlines. cbn [disk events].
  unfold log_lines in Hlog.
  destruct (d !! log_path tex_file) as [[content|]|] eqn:Hd;
    try discriminate Hlog.
  injection Hlog as <-.
  unfold mbind at 1 2. unfold M_bind, bind. cbn [disk events]. rewrite Hd.
  match goal with
  | |- (let (r, s') := (let (r0, s0) := ?m ?st in _) in _) = _ =>
      destruct (m st) as [[[] | e] st']
  end; reflexivity.
Qed.

(** X4. A failed compilation whose log can be read and in which every line
    starting with [!] has its excerpt ends in [CompilationError], carrying
    the compiler's name, the output format without its first character and
    the path of the log.  Before that the call has run the command, opened
    the log and logged, when the log has an error line, the headline followed
    by the excerpts in the order of the lines; a log without error lines is
    not reported at all. *)
Theorem compile_tex_compilation_error :
  forall (config : Config)
         (os_system : string -> gmap string node -> Z * gmap string node)
         (tex_file tex_compiler output_format command : string) (s : state)
         (exit_code : Z) (d : gmap string node) (log : list string)
         (excerpts : list (list string)),
    exists_on (disk s) (compiled_path tex_file output_format) = false ->
    tex_compilation_command tex_compiler output_format
      (Posix.as_posix tex_file) (Posix.as_posix (config_tex_dir config))
    = Ok command ->
    os_system command (disk s) = (exit_code, d) ->
    exit_code <> 0%Z ->
    log_lines d (log_path tex_file) = Some log ->
    Forall2 (fun lineno excerpt => error_excerpt log lineno = Ok excerpt)
            (log_error_pos log) excerpts ->
    compile_tex config os_system tex_file tex_compiler output_format s
    = (Raise (CompilationError tex_compiler (Str.drop 1 output_format)
                               (log_path tex_file)),
       State d (((events s ++ [System command])
                   ++ [OpenRead (log_path tex_file)])
                  ++ report_events tex_compiler log excerpts)).
Proof.
  intros config os_system tex_file tex_compiler output_format command s
         exit_code d log excerpts Hex Hcmd Hsys Hcode Hlog Hall.
  rewrite (compile_tex_failed_run config os_system tex_file tex_compiler
             output_format command s exit_code d log Hex Hcmd Hsys Hcode Hlog).
  unfold report_events.
  destruct (log_error_pos log) as [|lineno positions] eqn:Hpos.
  - unfold mret, M_ret, ret. rewrite app_nil_r. reflexivity.
  - unfold mbind, M_bind, bind, logger_error, emit. cbn [disk events].
    rewrite (report_errors_ok log (lineno :: positions) excerpts) by exact Hall.
    cbn [disk events]. rewrite <- (app_assoc _ [_] (map _ _)). reflexivity.
Qed.

Lemma compile_tex_compilation_error_witness :
  exists s' : state,
    compile_tex sample_config failing_compiler sample_tex_file "latex" ".dvi"
                empty_state
    = (Raise (CompilationError "latex" "dvi" (log_path sample_tex_file)), s')
    /\ LogError ("l.12 \foo" ++ newline) ∈ events s'.
Proof.
  eexists. split.
  - apply (compile_tex_compilation_error sample_config failing_compiler
             sample_tex_file "latex" ".dvi"
             (Str.join " "
                [ "latex"; "-interaction=batchmode";
                  "-output-format=" ++ Str.quoted "dvi"; "-halt-on-error";
                  "-output-directory=" ++ Str.quoted "media/Tex";
                  Str.quoted sample_tex_file; ">"; Posix.os_devnull ])
             empty_state 256%Z
             (<[log_path sample_tex_file
                := File (String.concat EmptyString log_with_location)]> ∅)
             log_with_location
             [take 4 (drop 1 log_with_location)]).
    + vm_compute. reflexivity.
    + vm_compute. reflexivity.
    + reflexivity.
    + discriminate.
    + vm_compute. reflexivity.
    + vm_compute. repeat constructor.
  - vm_compute. list_member.
Defined.

(** The excerpt for the last line of a log cannot be taken. *)
Lemma error_excerpt_of_last_line (log : list string) (line : string) :
  last log = Some line ->
  log !! (length log - 1) = Some line
  /\ error_excerpt log (length log - 1) = Raise IndexError.
Proof.
  intros Hlast. rewrite last_lookup in Hlast.
  replace (Init.Nat.pred (length log)) with (length log - 1) in Hlast by lia.
  split; [exact Hlast|].
  apply lookup_lt_Some in Hlast.
  unfold error_excerpt. simpl.
  rewrite (proj2 (lookup_ge_None log (length log - 1 + 1))) by lia.
  reflexivity.
Qed.

(** X5. A failed compilation whose log ends with a line starting with [!]
    (as the log of a run that was halted on its first error does) ends in
    [IndexError], not in [CompilationError]: the scan for the excerpt of
    that line reads past the end of the log. *)
Theorem compile_tex_index_error :
  forall (config : Config)
         (os_system : string -> gmap string node -> Z * gmap string node)
         (tex_file tex_compiler output_format command : string) (s : state)
         (exit_code : Z) (d : gmap string node) (log : list string)
         (line : string),
    exists_on (disk s) (compiled_path tex_file output_format) = false ->
    tex_compilation_command tex_compiler output_format
      (Posix.as_posix tex_file) (Posix.as_posix (config_tex_dir config))
    = Ok command ->
    os_system command (disk s) = (exit_code, d) ->
    exit_code <> 0%Z ->
    log_lines d (log_path tex_file) = Some log ->
    last log = Some line ->
    Str.startswith line "!" = true ->
    exists s' : state,
      compile_tex config os_system tex_file tex_compiler output_format s
      = (Raise IndexError, s')
      /\ disk s' = d.
Proof.
  intros config os_system tex_file tex_compiler output_format command s
         exit_code d log line Hex Hcmd Hsys Hcode Hlog Hlast Hbang.
  rewrite (compile_tex_failed_run config os_system tex_file tex_compiler
             output_format command s exit_code d log Hex Hcmd Hsys Hcode Hlog).
  destruct (error_excerpt_of_last_line log line Hlast) as [Hlook Hraise].
  assert (Hin : (length log - 1) ∈ log_error_pos log).
  { apply log_error_pos_spec. exists line. auto. }
  destruct (log_error_pos log) as [|lineno positions] eqn:Hpos.
  - apply elem_of_nil in Hin. contradiction.
  - unfold mbind, M_bind, bind, logger_error, emit. cbn [disk events].
    match goal with
    | |- context [report_errors log ?ps ?st] =>
        destruct (report_errors_raise log ps st) as (s' & Hrun & Hdisk)
    end.
    + apply Exists_exists. exists (length log - 1). auto.
    + rewrite Hrun. exists s'. split; [reflexivity|exact Hdisk].
Qed.

Lemma compile_tex_index_error_witness :
  exists s' : state,
    compile_tex sample_config halting_compiler sample_tex_file "pdflatex"
                ".pdf" empty_state
    = (Raise IndexError, s').
Proof.
  destruct (compile_tex_index_error sample_config halting_compiler
              sample_tex_file "pdflatex" ".pdf"
              (Str.join " "
                 [ "pdflatex"; "-interaction=batchmode";
                   "-output-format=" ++ Str.quoted "pdf"; "-halt-on-error";
                   "-output-directory=" ++ Str.quoted "media/Tex";
                   Str.quoted sample_tex_file; ">"; Posix.os_devnull ])
              empty_state 256%Z
              (<[log_path sample_tex_file
                 := File (String.concat EmptyString log_ending_with_error)]> ∅)
              log_ending_with_error
              ("!  ==> Fatal error occurred, no output PDF file produced!"
                 ++ newline))
    as (s' & Hrun & _).
  - vm_compute. reflexivity.
  - vm_compute. reflexivity.
  - reflexivity.
  - discriminate.
  - vm_compute. reflexivity.
  - reflexivity.
  - reflexivity.
  - exists s'. exact Hrun.
Defined.

(** X6. On a cache miss with a compiler that returns status 0,
    [compile_tex] returns the expected path and the state that the run left;
    it does not look whether the file is there. *)
Theorem compile_tex_trusts_exit_status :
  forall (config : Config)
         (os_system : string -> gmap string node -> Z * gmap string node)
         (tex_file tex_compiler output_format command : string) (s : state)
         (d : gmap string node),
    exists_on (disk s) (compiled_path tex_file output_format) = false ->
    tex_compilation_command tex_compiler output_format
      (Posix.as_posix tex_file) (Posix.as_posix (config_tex_dir config))
    = Ok command ->
    os_system command (disk s) = (0%Z, d) ->
    compile_tex config os_system tex_file tex_compiler output_format s
    = (Ok (compiled_path tex_file output_format),
       State d (events s ++ [System command])).
Proof.
  intros config os_system tex_file tex_compiler output_format command s d.
  apply compile_tex_success.
Qed.

Lemma compile_tex_trusts_exit_status_witness :
  exists s' : state,
    compile_tex sample_config silent_converter sample_tex_file "latex" ".dvi"
                empty_state
    = (Ok sample_dvi_file, s')
    /\ exists_on (disk s') sample_dvi_file = false.
Proof.
  eexists. split.
  - apply (compile_tex_trusts_exit_status sample_config silent_converter
             sample_tex_file "latex" ".dvi"
             (Str.join " "
                [ "latex"; "-interaction=batchmode";
                  "-output-format=" ++ Str.quoted "dvi"; "-halt-on-error";
                  "-output-directory=" ++ Str.quoted "media/Tex";
                  Str.quoted sample_tex_file; ">"; Posix.os_devnull ])
             empty_state ∅).
    + vm_compute. reflexivity.
    + vm_compute. reflexivity.
    + reflexivity.
  - vm_compute. reflexivity.
Defined.

(** ** The document generator, once more *)

(** X7. [generate_tex_file] is idempotent on its own: from every state it
    returns a path, and a second call from the state it leaves returns the
    same path and leaves that state as it is. *)
Theorem generate_tex_file_twice :
  forall (config : Config) (expression : string)
         (environment : option string) (tex_template : option TexTemplate)
         (s : state),
    exists (result : string) (s' : state),
      generate_tex_file config expression environment tex_template s
      = (Ok result, s')
      /\ generate_tex_file config expression environment tex_template s'
         = (Ok result, s').
Proof.
  intros config expression environment tex_template s.
  destruct (generate_tex_file config expression environment tex_template s)
    as [r s'] eqn:Hrun.
  pose proof Hrun as Hrun'. rewrite generate_tex_file_run in Hrun'.
  injection Hrun' as <- Hs'.
  eexists. exists s'. split; [reflexivity|].
  apply generate_tex_file_leaves in Hrun. destruct Hrun as (_ & Hdir & Hfile).
  rewrite generate_tex_file_run. unfold after_makedirs. rewrite Hdir.
  unfold after_write. rewrite Hfile. reflexivity.
Qed.



Example generate_tex_file_makes_ancestors :
  (disk (generate_tex_file sample_config "x^2" None None empty_state).2)
    !! "media" = Some Dir.
Proof. vm_compute. reflexivity. Qed.

(** X9. For a working directory that is not the empty path, the document
    lies under it: its path is [tex_dir], then a slash unless [tex_dir] ends
    with one, then the 16 digits of the fingerprint and [.tex]. *)
Theorem generate_tex_file_under_tex_dir :
  forall (config : Config) (expression : string)
         (environment : option string) (tex_template : option TexTemplate)
         (s : state),
    let output :=
      render expression environment
             (default (config_tex_template config) tex_template) in
    let tex_dir := config_tex_dir config in
    let separator :=
      if Str.endswith tex_dir "/" then EmptyString else "/" in
    tex_dir <> EmptyString ->
    exists s' : state,
      generate_tex_file config expression environment tex_template s
      = (Ok (tex_dir ++ separator ++ tex_hash output ++ ".tex"), s')
      /\ String.prefix tex_dir (tex_dir ++ separator ++ tex_hash output
                                  ++ ".tex") = true
      /\ String.length (tex_dir ++ separator ++ tex_hash output ++ ".tex")
         = String.length tex_dir + String.length separator + 20.
Proof.
  intros config expression environment tex_template s output tex_dir
         separator Hdir.
  eexists. split; [|split].
  - rewrite generate_tex_file_run. fold output. fold tex_dir. f_equal. f_equal.
    unfold Posix.path_join. rewrite tex_hash_not_absolute. unfold separator.
    destruct (String.eqb_spec tex_dir EmptyString) as [E|_]; [contradiction|].
    cbn [orb].
    destruct (Str.endswith tex_dir "/");
      rewrite ?string_append_nil_l, !string_append_assoc; reflexivity.
  - apply prefix_iff. eexists. reflexivity.
  - rewrite !string_length_append.
    rewrite (tex_hash_length output). unfold separator.
    destruct (Str.endswith tex_dir "/"); simpl; lia.
Qed.

Lemma generate_tex_file_under_tex_dir_witness :
  exists s' : state,
    generate_tex_file sample_config "x^2" None None empty_state
    = (Ok ("media/Tex" ++ "/"
           ++ tex_hash (get_texcode_for_expression sample_template "x^2")
           ++ ".tex"), s').
Proof.
  destruct (generate_tex_file_under_tex_dir sample_config "x^2" None None
              empty_state) as (s' & Hrun & _).
  - discriminate.
  - exists s'. exact Hrun.
Defined.

(** ** Command construction, once more *)

(** X10. [tex_compilation_command] builds a command exactly for the four
    compilers of the latex family, with any output format, and for [xelatex]
    with the formats [.xdv] and [.pdf]; for every other pair of arguments it
    raises, and neither the file nor the directory matters. *)
Theorem tex_compilation_command_defined_iff :
  forall tex_compiler output_format tex_file tex_dir : string,
    (exists command : string,
        tex_compilation_command tex_compiler output_format tex_file tex_dir
        = Ok command)
    <-> tex_compiler ∈ latex_family
        \/ (tex_compiler = "xelatex"
            /\ (output_format = ".xdv" \/ output_format = ".pdf")).
Proof.
  intros tex_compiler output_format tex_file tex_dir.
  unfold tex_compilation_command, tex_compilation_commands.
  destruct (decide (tex_compiler ∈ latex_family)) as [Hin|Hout].
  - rewrite bool_decide_eq_true_2 by exact Hin. split; [auto|eauto].
  - rewrite bool_decide_eq_false_2 by exact Hout.
    destruct (String.eqb_spec tex_compiler "xelatex") as [->|Hne].
    + destruct (String.eqb_spec output_format ".xdv") as [->|Hxdv].
      * split; [auto|eauto].
      * destruct (String.eqb_spec output_format ".pdf") as [->|Hpdf].
        -- split; [auto|eauto].
        -- split.
           ++ intros [command H]. discriminate H.
           ++ intros [H|[_ [H|H]]]; contradiction.
    + split.
      * intros [command H]. discriminate H.
      * intros [H|[H _]]; contradiction.
Qed.

(** ** The pipeline, once more *)

(** X11. A path that [tex_to_svg_file] returns exists on the disk that the
    call leaves, and it is the SVG path derived from the document's path;
    when the commands remove no path, the document and its directory exist
    as well. *)
Theorem tex_to_svg_file_returns_existing_path :
  forall (config : Config)
         (os_system : string -> gmap string node -> Z * gmap string node)
         (expression : string) (environment : option string)
         (tex_template : option TexTemplate) (s s' : state) (svg : string),
    let template := default (config_tex_template config) tex_template in
    let tex_file :=
      Posix.path_join (config_tex_dir config)
        (tex_hash (render expression environment template)) ++ ".tex" in
    tex_to_svg_file config os_system expression environment tex_template s
    = (Ok svg, s') ->
    svg = svg_path (compiled_path tex_file (output_format template))
                   (output_format template)
    /\ exists_on (disk s') svg = true
    /\ (keeps_paths os_system ->
        exists_on (disk s') tex_file = true
        /\ exists_on (disk s') (config_tex_dir config) = true).
Proof.
  intros config os_system expression environment tex_template s s' svg
         template tex_file Hrun.
  unfold tex_to_svg_file in Hrun. fold template in Hrun.
  unfold mbind, M_bind, bind in Hrun.
  destruct (generate_tex_file config expression environment (Some template) s)
    as [[tex_file'|e] sa] eqn:Hgen; [|discriminate Hrun].
  destruct (compile_tex config os_system tex_file' (tex_compiler template)
              (output_format template) sa)
    as [[dvi_file|e] sb] eqn:Hcomp; [|discriminate Hrun].
  apply generate_tex_file_leaves in Hgen.
  change (default (config_tex_template config) (Some template))
    with template in Hgen.
  fold tex_file in Hgen. destruct Hgen as (-> & Hdir & Htex).
  apply compile_tex_returns in Hcomp. destruct Hcomp as (-> & Hkeep_b).
  apply convert_to_svg_returns in Hrun. destruct Hrun as (-> & Hsvg & Hkeep_1).
  split; [reflexivity|]. split; [exact Hsvg|].
  intros K. split; apply (Hkeep_1 K), (Hkeep_b K); assumption.
Qed.

Lemma tex_to_svg_file_returns_existing_path_witness :
  exists s' : state,
    tex_to_svg_file sample_config working_toolchain "x^2" None None
                    empty_state
    = (Ok sample_svg_file, s')
    /\ exists_on (disk s') sample_svg_file = true.
Proof.
  destruct (tex_to_svg_file sample_config working_toolchain "x^2" None None
              empty_state) as [r s1] eqn:Hfirst.
  assert (Hr : r = Ok sample_svg_file).
  { apply (f_equal fst) in Hfirst. simpl in Hfirst. rewrite <- Hfirst.
    vm_compute. reflexivity. }
  subst r. exists s1. split; [reflexivity|].
  destruct (tex_to_svg_file_returns_existing_path sample_config
              working_toolchain "x^2" None None empty_state s1
              sample_svg_file Hfirst) as (_ & Hsvg & _).
  exact Hsvg.
Defined.

Lemma compile_tex_no_log_run (config : Config)
    (os_system : string -> gmap string node -> Z * gmap string node)
    (tex_file tex_compiler output_format command : string) (s : state)
    (exit_code : Z) (d : gmap string node) :
  exists_on (disk s) (compiled_path tex_file output_format) = false ->
  tex_compilation_command tex_compiler output_format
    (Posix.as_posix tex_file) (Posix.as_posix (config_tex_dir config))
  = Ok command ->
  os_system command (disk s) = (exit_code, d) ->
  exit_code <> 0%Z ->
  exists_on d (log_path tex_file) = false ->
  compile_tex config os_system tex_file tex_compiler output_format s
  = (Raise (ToolchainMissing tex_compiler),
     State d (events s ++ [System command])).
Proof.
  intros Hex Hcmd Hsys Hcode Hlog.
  unfold compile_tex. run_monad. rewrite Hex. simpl. rewrite Hcmd.
  unfold system. rewrite Hsys.
  destruct (Z.eqb_spec exit_code 0) as [E|_]; [contradiction|]. simpl.
  unfold log_path in Hlog. rewrite Hlog. reflexivity.
Qed.

(** ** What the stages do to the outside *)

Lemma report_errors_frame (log : list string) :
  forall (positions : list nat) (s s' : state) (r : result unit),
    report_errors log positions s = (r, s') ->
    disk s' = disk s
    /\ exists rest : list event,
         events s' = (events s ++ rest)%list /\ Forall reads_or_logs rest.
Proof.
  induction positions as [|lineno positions IH]; intros s s' r H.
  - simpl in H. injection H as <- <-. split; [reflexivity|].
    exists []. rewrite app_nil_r. split; [reflexivity|constructor].
  - simpl in H. unfold mbind, M_bind, bind, lift in H.
    destruct (error_excerpt log lineno) as [excerpt|e].
    + rewrite logger_error_each_run in H. apply IH in H.
      destruct H as (Hdisk & rest & Hev & Hrest). cbn [disk events] in *.
      split; [exact Hdisk|].
      exists (map LogError excerpt ++ rest)%list.
      split; [rewrite Hev, app_assoc; reflexivity|].
      apply Forall_app. split; [|exact Hrest].
      apply Forall_forall. intros ev Hin. apply list_elem_of_fmap in Hin.
      destruct Hin as (line & -> & _). exact I.
    + injection H as <- <-. split; [reflexivity|].
      exists []. rewrite app_nil_r. split; [reflexivity|constructor].
Qed.

(** X12. Whatever its outcome, [compile_tex] either leaves the state as it is
    (the output was there, or no command could be built), or it has run one
    command, the constructed one, and the disk is the one that run left:
    after the run it only opens the log and logs errors.  It never writes a
    file or creates a directory itself. *)
Theorem compile_tex_effects :
  forall (config : Config)
         (os_system : string -> gmap string node -> Z * gmap string node)
         (tex_file tex_compiler output_format : string) (s s' : state)
         (r : result string),
    compile_tex config os_system tex_file tex_compiler output_format s
    = (r, s') ->
    s' = s
    \/ exists (command : string) (rest : list event),
         tex_compilation_command tex_compiler output_format
           (Posix.as_posix tex_file) (Posix.as_posix (config_tex_dir config))
         = Ok command
         /\ disk s' = (os_system command (disk s)).2
         /\ events s' = (events s ++ System command :: rest)%list
         /\ Forall reads_or_logs rest.
Proof.
  intros config os_system tex_file tex_compiler output_format s s' r H.
  destruct (exists_on (disk s) (compiled_path tex_file output_format))
    eqn:Hex.
  { rewrite compile_tex_cached in H by exact Hex. injection H as <- <-.
    left. reflexivity. }
  destruct (tex_compilation_command tex_compiler output_format
              (Posix.as_posix tex_file)
              (Posix.as_posix (config_tex_dir config)))
    as [command|e] eqn:Hcmd.
  2:{ rewrite (compile_tex_no_command _ _ _ _ _ _ e Hex Hcmd) in H.
      injection H as <- <-. left. reflexivity. }
  right. exists command.
  destruct (os_system command (disk s)) as [exit_code d] eqn:Hsys.
  destruct (Z.eq_dec exit_code 0%Z) as [->|Hcode].
  { rewrite (compile_tex_success _ _ _ _ _ _ _ d Hex Hcmd Hsys) in H.
    injection H as <- <-. exists []. repeat split. constructor. }
  destruct (exists_on d (log_path tex_file)) eqn:Hlog.
  2:{ rewrite (compile_tex_no_log_run config os_system tex_file
                 tex_compiler output_format command s exit_code d
                 Hex Hcmd Hsys Hcode Hlog) in H. injection H as <- <-.
      exists []. repeat split. constructor. }
  destruct (log_lines d (log_path tex_file)) as [log|] eqn:Hlines.
  - rewrite (compile_tex_failed_run _ _ _ _ _ _ _ _ d log
               Hex Hcmd Hsys Hcode Hlines) in H.
    match type of H with
    | match ?x with _ => _ end = _ => destruct x as [r0 s0] eqn:Hrep
    end.
    assert (Hframe : disk s0 = d
                     /\ exists rest : list event,
                          events s0
                          = (((events s ++ [System command])
                                ++ [OpenRead (log_path tex_file)])
                               ++ rest)%list
                          /\ Forall reads_or_logs rest).
    { destruct (log_error_pos log) as [|lineno positions].
      - injection Hrep as <- <-. split; [reflexivity|].
        exists []. rewrite app_nil_r. split; [reflexivity|constructor].
      - unfold mbind, M_bind, bind, logger_error, emit in Hrep.
        cbn [disk events] in Hrep. apply report_errors_frame in Hrep.
        destruct Hrep as (Hdisk & rest & Hev & Hrest). cbn [disk events] in *.
        split; [exact Hdisk|].
        eexists (_ :: rest). split.
        + rewrite Hev, <- (app_assoc _ [_] rest). reflexivity.
        + constructor; [exact I|exact Hrest]. }
    destruct Hframe as (Hdisk & rest & Hev & Hrest).
    assert (Hs' : s' = s0) by (destruct r0 as [[]|e]; congruence).
    subst s'. exists (OpenRead (log_path tex_file) :: rest).
    split; [reflexivity|]. split; [exact Hdisk|]. split.
    + rewrite Hev, <- !app_assoc. reflexivity.
    + constructor; [exact I|exact Hrest].
  - (* the log is a directory: open() fails *)
    exists [OpenRead (log_path tex_file)].
    assert (Hrun : compile_tex config os_system tex_file tex_compiler
                     output_format s
                   = (Raise (OSError (log_path tex_file)),
                      State d ((events s ++ [System command])
                                 ++ [OpenRead (log_path tex_file)]))).
    { unfold compile_tex. unfold mbind at 1 2 3 4 5 6. unfold M_bind, bind.
      unfold path_exists at 1. rewrite Hex. cbn [negb].
      unfold lift. rewrite Hcmd. unfold system. rewrite Hsys.
      destruct (Z.eqb_spec exit_code 0) as [E|_]; [contradiction|].
      cbn [negb]. unfold path_exists. cbn [disk].
      fold (log_path tex_file). rewrite Hlog. cbn [negb].
      unfold mret at 1. unfold M_ret, ret.
      unfold mbind at 1. unfold M_bind, bind, readlines. cbn [disk events].
      unfold log_lines in Hlines.
      destruct (d !! log_path tex_file) as [[content|]|] eqn:Hd;
        [discriminate Hlines|reflexivity|].
      apply exists_on_true in Hlog. rewrite Hd in Hlog.
      destruct Hlog as [x Hx]. discriminate Hx. }
    rewrite Hrun in H. injection H as <- <-.
    split; [reflexivity|]. split; [reflexivity|]. split.
    + rewrite <- app_assoc. reflexivity.
    + repeat constructor.
Qed.

(** The run of the converter on a cache miss. *)
Lemma convert_to_svg_miss_run
    (os_system : string -> gmap string node -> Z * gmap string node)
    (dvi_file extension : string) (page : Z) (s : state) :
  exists_on (disk s) (svg_path dvi_file extension) = false ->
  let command :=
    Str.join " " (dvisvgm_commands (Posix.as_posix dvi_file) extension
                                   (svg_path dvi_file extension) page) in
  convert_to_svg os_system dvi_file extension page s
  = (if exists_on (os_system command (disk s)).2 (svg_path dvi_file extension)
     then Ok (svg_path dvi_file extension)
     else Raise (ConversionUnsupported extension),
     State (os_system command (disk s)).2 (events s ++ [System command])).
Proof.
  intros Hex command. unfold convert_to_svg. run_monad. rewrite Hex. simpl.
  unfold system. fold command.
  destruct (os_system command (disk s)) as [exit_code d]. simpl.
  destruct (exists_on d (svg_path dvi_file extension)); reflexivity.
Qed.

Lemma compile_tex_effects_witness :
  exists (r : result string) (s' : state) (rest : list event),
    compile_tex sample_config failing_compiler sample_tex_file "latex" ".dvi"
                empty_state
    = (r, s')
    /\ disk s' = (failing_compiler "latex" ∅).2
    /\ Forall reads_or_logs rest
    /\ length (events s') = S (length rest).
Proof.
  destruct (compile_tex sample_config failing_compiler sample_tex_file
              "latex" ".dvi" empty_state) as [r s'] eqn:Hrun.
  destruct (compile_tex_effects sample_config failing_compiler
              sample_tex_file "latex" ".dvi" empty_state s' r Hrun)
    as [Hsame|(command & rest & _ & Hdisk & Hev & Hrest)].
  - exfalso. apply (f_equal snd) in Hrun. simpl in Hrun.
    rewrite Hsame in Hrun. apply (f_equal events) in Hrun.
    vm_compute in Hrun. discriminate Hrun.
  - exists r, s', rest. split; [reflexivity|]. split; [exact Hdisk|].
    split; [exact Hrest|]. rewrite Hev. reflexivity.
Defined.

(** X13. Whatever its outcome, [convert_to_svg] either leaves the state as it
    is and returns the SVG path (the path was there), or it has run exactly
    one command, [dvisvgm] with [--pdf] for the extension [.pdf] and an
    empty place otherwise, the page, the quoted input, [-n], [-v 0], the
    quoted output and the redirection, and the disk is the one that run
    left. *)
Theorem convert_to_svg_effects :
  forall (os_system : string -> gmap string node -> Z * gmap string node)
         (dvi_file extension : string) (page : Z) (s s' : state)
         (r : result string),
    let result := svg_path dvi_file extension in
    let command :=
      "dvisvgm " ++ (if String.eqb extension ".pdf" then "--pdf"
                     else EmptyString)
        ++ " -p " ++ pretty page ++ " "
        ++ Str.quoted (Posix.as_posix dvi_file)
        ++ " -n -v 0 -o " ++ Str.quoted result ++ " > /dev/null" in
    convert_to_svg os_system dvi_file extension page s = (r, s') ->
    (exists_on (disk s) result = true /\ s' = s /\ r = Ok result)
    \/ (exists_on (disk s) result = false
        /\ disk s' = (os_system command (disk s)).2
        /\ events s' = (events s ++ [System command])%list
        /\ r = if exists_on (disk s') result then Ok result
               else Raise (ConversionUnsupported extension)).
Proof.
  intros os_system dvi_file extension page s s' r result command H.
  assert (Hcommand : Str.join " " (dvisvgm_commands (Posix.as_posix dvi_file)
                                     extension result page) = command).
  { unfold command, dvisvgm_commands, Str.join. cbn [String.concat].
    destruct (String.eqb extension ".pdf");
      repeat (rewrite ?string_append_assoc, ?string_append_cons,
               ?string_append_nil_l); reflexivity. }
  destruct (exists_on (disk s) result) eqn:Hex.
  - left. unfold result in Hex. rewrite convert_to_svg_cached in H by exact Hex.
    injection H as <- <-. auto.
  - right. split; [reflexivity|].
    pose proof (convert_to_svg_miss_run os_system dvi_file
                  extension page s Hex) as Hrun.
    cbv zeta in Hrun. fold result in Hrun. rewrite Hcommand in Hrun. rewrite Hrun in H.
    injection H as <- <-. cbn [disk events]. auto.
Qed.

Lemma convert_to_svg_effects_witness :
  exists s' : state,
    convert_to_svg grumbling_converter sample_dvi_file ".dvi" 3 empty_state
    = (Ok sample_svg_file, s')
    /\ events s'
       = [System ("dvisvgm  -p 3 " ++ Str.quoted sample_dvi_file
                  ++ " -n -v 0 -o " ++ Str.quoted sample_svg_file
                  ++ " > /dev/null")].
Proof.
  destruct (convert_to_svg grumbling_converter sample_dvi_file ".dvi" 3
              empty_state) as [r s'] eqn:Hrun.
  destruct (convert_to_svg_effects grumbling_converter sample_dvi_file
              ".dvi" 3 empty_state s' r Hrun)
    as [(Hex & _)|(_ & _ & Hev & _)].
  - vm_compute in Hex. discriminate Hex.
  - exists s'. split; [|exact Hev].
    assert (Hr : r = Ok sample_svg_file).
    { apply (f_equal fst) in Hrun. simpl in Hrun. rewrite <- Hrun.
      vm_compute. reflexivity. }
    subst r. reflexivity.
Defined.

(** ** Paths derived by [replace] *)

Lemma str_find_from_spec (sub : string) :
  forall (s : string) (i n : nat),
    str_find_from s sub i = Some n ->
    i <= n
    /\ String.prefix sub (Str.drop (n - i) s) = true
    /\ forall k : nat, k < n - i -> String.prefix sub (Str.drop k s) = false.
Proof.
  induction s as [|c s IH]; intros i n H; cbn [str_find_from] in H.
  - destruct (String.prefix sub EmptyString) eqn:Hp; [|discriminate H].
    injection H as <-. rewrite Nat.sub_diag. split; [lia|].
    split; [exact Hp|]. intros k Hk. lia.
  - destruct (String.prefix sub (String c s)) eqn:Hp.
    + injection H as <-. rewrite Nat.sub_diag. split; [lia|].
      split; [exact Hp|]. intros k Hk. lia.
    + apply IH in H. destruct H as (Hle & Hat & Hbefore).
      split; [lia|].
      replace (n - i) with (S (n - S i)) by lia. split; [exact Hat|].
      intros [|k] Hk; [exact Hp|]. apply Hbefore. lia.
Qed.

Lemma str_find_from_none (sub new : string) :
  forall (s : string) (i : nat),
    str_find_from s sub i = None -> Str.replace s sub new = s.
Proof.
  intros s i H.
  destruct sub as [|a o].
  { destruct s; cbn in H; discriminate H. }
  unfold Str.replace. revert i H.
  induction s as [|c s IH]; intros i H; [reflexivity|].
  cbn [str_find_from] in H.
  change (Str.replace_from (String a o) new 0 (String c s))
    with (if String.prefix (String a o) (String c s)
          then new ++ Str.replace_from (String a o) new
                        (String.length (String a o) - 1) s
          else String c (Str.replace_from (String a o) new 0 s)).
  destruct (String.prefix (String a o) (String c s)); [discriminate H|].
  f_equal. apply (IH (S i)). exact H.
Qed.

(** X14. When the first [.tex] of the document path is its extension, the
    expected output path of [compile_tex] is the path with the extension
    replaced by the output format, in posix form; the same holds for
    [convert_to_svg] and a non-empty extension. *)
Theorem paths_replace_extension :
  forall stem output_format extension : string,
    (str_find (stem ++ ".tex") ".tex" = Some (String.length stem) ->
     compiled_path (stem ++ ".tex") output_format
     = Posix.as_posix (stem ++ output_format))
    /\ (extension <> EmptyString ->
        str_find (stem ++ extension) extension = Some (String.length stem) ->
        svg_path (stem ++ extension) extension
        = Posix.as_posix (stem ++ ".svg")).
Proof.
  intros stem output_format extension. split.
  - intros H. apply compiled_path_extension_only.
    apply str_find_from_spec in H. destruct H as (_ & _ & Hbefore).
    intros i Hi. apply Hbefore. lia.
  - intros Hne H. unfold svg_path.
    rewrite replace_suffix_only; [reflexivity|exact Hne|].
    apply str_find_from_spec in H. destruct H as (_ & _ & Hbefore).
    intros i Hi. apply Hbefore. lia.
Qed.

Lemma paths_replace_extension_witness :
  compiled_path ("media/Tex/5b029881cc5d477a" ++ ".tex") ".dvi"
  = Posix.as_posix ("media/Tex/5b029881cc5d477a" ++ ".dvi")
  /\ svg_path ("media/Tex/5b029881cc5d477a" ++ ".dvi") ".dvi"
     = Posix.as_posix ("media/Tex/5b029881cc5d477a" ++ ".svg").
Proof.
  destruct (paths_replace_extension "media/Tex/5b029881cc5d477a" ".dvi"
              ".dvi") as [Htex Hsvg].
  split.
  - apply Htex. vm_compute. reflexivity.
  - apply Hsvg; [discriminate|vm_compute; reflexivity].
Defined.

(** X15. When the extension does not occur in the input path,
    [convert_to_svg] takes the input path itself, in posix form, for the SVG
    path: an input that exists is returned as it is, and nothing is run. *)
Theorem convert_to_svg_without_extension :
  forall (os_system : string -> gmap string node -> Z * gmap string node)
         (dvi_file extension : string) (page : Z) (s : state),
    str_find dvi_file extension = None ->
    svg_path dvi_file extension = Posix.as_posix dvi_file
    /\ (exists_on (disk s) (Posix.as_posix dvi_file) = true ->
        convert_to_svg os_system dvi_file extension page s
        = (Ok (Posix.as_posix dvi_file), s)).
Proof.
  intros os_system dvi_file extension page s H.
  assert (Hpath : svg_path dvi_file extension = Posix.as_posix dvi_file).
  { unfold svg_path. rewrite (str_find_from_none extension ".svg" dvi_file 0);
      [reflexivity|exact H]. }
  split; [exact Hpath|].
  intros Hex. rewrite <- Hpath. apply convert_to_svg_cached.
  rewrite Hpath. exact Hex.
Qed.

Lemma convert_to_svg_without_extension_witness :
  convert_to_svg no_toolchain "media/Tex/ab.dvi" ".pdf" 1
                 (State {[ "media/Tex/ab.dvi" := File "dvi" ]} [])
  = (Ok "media/Tex/ab.dvi", State {[ "media/Tex/ab.dvi" := File "dvi" ]} []).
Proof.
  destruct (convert_to_svg_without_extension no_toolchain "media/Tex/ab.dvi"
              ".pdf" 1 (State {[ "media/Tex/ab.dvi" := File "dvi" ]} []))
    as [_ Hrun].
  - vm_compute. reflexivity.
  - apply Hrun. vm_compute. reflexivity.
Defined.

(** ** The order of the cache checks *)

(** X16. The SVG on disk does not end the pipeline early.  When the document
    and the SVG exist but the compiled output does not, the compiler is run
    all the same; if it returns status 0 and the SVG is still there, the
    pipeline returns the SVG path and the converter is not run. *)
Theorem tex_to_svg_file_recompiles_without_output :
  forall (config : Config)
         (os_system : string -> gmap string node -> Z * gmap string node)
         (expression : string) (environment : option string)
         (tex_template : option TexTemplate) (s : state) (command : string)
         (d : gmap string node),
    let template := default (config_tex_template config) tex_template in
    let tex_file :=
      Posix.path_join (config_tex_dir config)
        (tex_hash (render expression environment template)) ++ ".tex" in
    let dvi_file := compiled_path tex_file (output_format template) in
    let svg := svg_path dvi_file (output_format template) in
    exists_on (disk s) (config_tex_dir config) = true ->
    exists_on (disk s) tex_file = true ->
    exists_on (disk s) dvi_file = false ->
    tex_compilation_command (tex_compiler template) (output_format template)
      (Posix.as_posix tex_file) (Posix.as_posix (config_tex_dir config))
    = Ok command ->
    os_system command (disk s) = (0%Z, d) ->
    exists_on d svg = true ->
    tex_to_svg_file config os_system expression environment tex_template s
    = (Ok svg, State d (events s ++ [System command])).
Proof.
  intros config os_system expression environment tex_template s command d
         template tex_file dvi_file svg Hdir Htex Hdvi Hcmd Hsys Hsvg.
  unfold tex_to_svg_file. fold template. unfold mbind, M_bind, bind.
  rewrite generate_tex_file_run.
  change (default (config_tex_template config) (Some template)) with template.
  fold tex_file.
  unfold after_makedirs. rewrite Hdir. unfold after_write. rewrite Htex.
  rewrite (compile_tex_success config os_system tex_file
             (tex_compiler template) (output_format template) command s d
             Hdvi Hcmd Hsys).
  apply convert_to_svg_cached. exact Hsvg.
Qed.

Lemma tex_to_svg_file_recompiles_without_output_witness :
  exists command : string,
    tex_to_svg_file sample_config silent_converter "x^2" None None
      (State {[ "media/Tex" := Dir;
                sample_tex_file := File "tex";
                sample_svg_file := File "<svg/>" ]} [])
    = (Ok sample_svg_file,
       State {[ "media/Tex" := Dir;
                sample_tex_file := File "tex";
                sample_svg_file := File "<svg/>" ]} [System command])
    /\ Str.startswith command "latex" = true.
Proof.
  eexists. split.
  - apply (tex_to_svg_file_recompiles_without_output sample_config
             silent_converter "x^2" None None
             (State {[ "media/Tex" := Dir;
                       sample_tex_file := File "tex";
                       sample_svg_file := File "<svg/>" ]} [])
             (Str.join " "
                [ "latex"; "-interaction=batchmode";
                  "-output-format=" ++ Str.quoted "dvi"; "-halt-on-error";
                  "-output-directory=" ++ Str.quoted "media/Tex";
                  Str.quoted sample_tex_file; ">"; Posix.os_devnull ])).
    + vm_compute. reflexivity.
    + vm_compute. reflexivity.
    + vm_compute. reflexivity.
    + vm_compute. reflexivity.
    + reflexivity.
    + vm_compute. reflexivity.
  - vm_compute. reflexivity.
Defined.

(** ** Paths in posix form *)

Lemma split_slash_free (s : string) : Forall slash_free (Str.split "/" s).
Proof.
  induction s as [|c s IH]; simpl.
  - repeat constructor.
  - destruct (Ascii.eqb_spec c "/") as [->|Hc].
    + constructor; [constructor|exact IH].
    + destruct (Str.split "/" s) as [|x r].
      * repeat constructor. exact Hc.
      * apply Forall_cons in IH. destruct IH as [Hx Hr].
        constructor; [|exact Hr]. constructor; [exact Hc|exact Hx].
Qed.

Lemma split_component (x rest : string) :
  slash_free x ->
  Str.split "/" (x ++ String "/" rest) = x :: Str.split "/" rest.
Proof.
  induction x as [|c x IH]; intros Hx.
  - rewrite string_append_nil_l. reflexivity.
  - apply Forall_cons in Hx. destruct Hx as [Hc Hx].
    rewrite string_append_cons. cbn [Str.split].
    destruct (Ascii.eqb_spec c "/") as [E|_]; [contradiction|].
    rewrite (IH Hx). reflexivity.
Qed.

Lemma split_single (x : string) : slash_free x -> Str.split "/" x = [x].
Proof.
  induction x as [|c x IH]; intros Hx; [reflexivity|].
  apply Forall_cons in Hx. destruct Hx as [Hc Hx]. cbn [Str.split].
  destruct (Ascii.eqb_spec c "/") as [E|_]; [contradiction|].
  rewrite (IH Hx). reflexivity.
Qed.

Lemma join_cons (x y : string) (l : list string) :
  Str.join "/" (x :: y :: l) = x ++ String "/" (Str.join "/" (y :: l)).
Proof. reflexivity. Qed.

(** Splitting undoes joining, for components without a slash. *)
Lemma split_join (parts : list string) :
  parts <> [] -> Forall slash_free parts ->
  Str.split "/" (Str.join "/" parts) = parts.
Proof.
  induction parts as [|x parts IH]; intros Hne Hall; [contradiction|].
  apply Forall_cons in Hall. destruct Hall as [Hx Hall].
  destruct parts as [|y parts].
  - apply split_single. exact Hx.
  - rewrite join_cons, split_component by exact Hx.
    rewrite IH; [reflexivity|discriminate|exact Hall].
Qed.

Lemma filter_kept_all (parts : list string) :
  Forall (fun x => Posix.kept x = true) parts ->
  List.filter Posix.kept parts = parts.
Proof.
  induction parts as [|x parts IH]; intros H; [reflexivity|].
  apply Forall_cons in H. destruct H as [Hx H]. simpl.
  rewrite Hx, (IH H). reflexivity.
Qed.

Lemma filter_kept_kept (l : list string) :
  Forall (fun x => Posix.kept x = true) (List.filter Posix.kept l).
Proof.
  induction l as [|x l IH]; simpl; [constructor|].
  destruct (Posix.kept x) eqn:Hx; [constructor; assumption|exact IH].
Qed.

Lemma filter_slash_free (l : list string) :
  Forall slash_free l -> Forall slash_free (List.filter Posix.kept l).
Proof.
  induction l as [|x l IH]; intros H; simpl; [constructor|].
  apply Forall_cons in H. destruct H as [Hx H].
  destruct (Posix.kept x); [constructor; auto|auto].
Qed.

Lemma startswith_slash_cons (c : ascii) (s : string) :
  Str.startswith (String c s) "/" = Ascii.eqb c "/".
Proof.
  unfold Str.startswith. cbn [String.prefix].
  destruct (ascii_dec "/" c) as [<-|Hc]; [destruct s; reflexivity|].
  destruct (Ascii.eqb_spec c "/") as [E|_]; [|reflexivity].
  symmetry in E. contradiction.
Qed.

(** Joined components do not start with a slash. *)
Lemma join_not_absolute (parts : list string) :
  Forall (fun x => Posix.kept x = true) parts ->
  Forall slash_free parts ->
  Str.startswith (Str.join "/" parts) "/" = false.
Proof.
  intros Hkept Hfree. destruct parts as [|x parts]; [reflexivity|].
  apply Forall_cons in Hkept. destruct Hkept as [Hx _].
  apply Forall_cons in Hfree. destruct Hfree as [Hfx _].
  destruct x as [|c x]; [discriminate Hx|].
  apply Forall_cons in Hfx. destruct Hfx as [Hc _].
  assert (Hhead : exists rest : string,
             Str.join "/" (String c x :: parts) = String c rest).
  { destruct parts as [|y parts].
    - exists x. reflexivity.
    - rewrite join_cons, string_append_cons. eauto. }
  destruct Hhead as [rest ->]. rewrite startswith_slash_cons.
  destruct (Ascii.eqb_spec c "/") as [E|_]; [contradiction|reflexivity].
Qed.

Lemma lstrip_sep_not_absolute (j : string) :
  Str.startswith j "/" = false -> Posix.lstrip_sep j = j.
Proof.
  destruct j as [|c j]; [reflexivity|]. rewrite startswith_slash_cons.
  intros Hc. cbn [Posix.lstrip_sep]. rewrite Hc. reflexivity.
Qed.

Lemma splitroot_roots (p : string) :
  (Posix.splitroot p).1 = EmptyString
  \/ (Posix.splitroot p).1 = "/" \/ (Posix.splitroot p).1 = "//".
Proof.
  unfold Posix.splitroot. destruct (Str.startswith p "/"); [|auto].
  destruct (_ =? 2)%nat; auto.
Qed.

Lemma splitroot_rooted (root j : string) :
  root = EmptyString \/ root = "/" \/ root = "//" ->
  Str.startswith j "/" = false ->
  Posix.splitroot (root ++ j) = (root, j).
Proof.
  intros Hroot Hj. pose proof (lstrip_sep_not_absolute j Hj) as Hstrip.
  destruct Hroot as [->|[->| ->]].
  - rewrite string_append_nil_l. unfold Posix.splitroot. rewrite Hj.
    reflexivity.
  - unfold Posix.splitroot.
    change ("/" ++ j) with (String "/" j).
    rewrite startswith_slash_cons. cbn [Ascii.eqb Bool.eqb]. cbn iota.
    change (Posix.lstrip_sep (String "/" j)) with (Posix.lstrip_sep j).
    rewrite Hstrip. cbn [String.length].
    replace (S (String.length j) - String.length j) with 1 by lia.
    reflexivity.
  - unfold Posix.splitroot.
    change ("//" ++ j) with (String "/" (String "/" j)).
    rewrite startswith_slash_cons. cbn [Ascii.eqb Bool.eqb]. cbn iota.
    change (Posix.lstrip_sep (String "/" (String "/" j)))
      with (Posix.lstrip_sep j).
    rewrite Hstrip. cbn [String.length].
    replace (S (S (String.length j)) - String.length j) with 2 by lia.
    reflexivity.
Qed.

(** [as_posix] yields a fixed point of itself. *)
Lemma as_posix_idempotent (p : string) :
  Posix.as_posix (Posix.as_posix p) = Posix.as_posix p.
Proof.
  unfold Posix.as_posix at 2 3.
  pose proof (splitroot_roots p) as Hroot.
  destruct (Posix.splitroot p) as [root rel]. cbn [fst] in Hroot.
  set (parts := List.filter Posix.kept (Str.split "/" rel)).
  assert (Hkept : Forall (fun x => Posix.kept x = true) parts)
    by apply filter_kept_kept.
  assert (Hfree : Forall slash_free parts)
    by (apply filter_slash_free, split_slash_free).
  destruct (String.eqb_spec (root ++ Str.join "/" parts) EmptyString)
    as [E|Hne]; [reflexivity|].
  unfold Posix.as_posix.
  rewrite (splitroot_rooted root (Str.join "/" parts) Hroot
             (join_not_absolute parts Hkept Hfree)).
  assert (Hparts : List.filter Posix.kept
                     (Str.split "/" (Str.join "/" parts)) = parts).
  { destruct parts as [|x l] eqn:Hp; [reflexivity|].
    rewrite split_join by (auto; discriminate).
    apply filter_kept_all. exact Hkept. }
  rewrite Hparts.
  destruct (String.eqb_spec (root ++ Str.join "/" parts) EmptyString)
    as [E|_]; [contradiction|reflexivity].
Qed.

(** X17. The paths that [compile_tex] and [convert_to_svg] derive, and the
    posix form of any path, are unchanged by [Path(...).as_posix()]: the
    converter's normalisation of a path that [compile_tex] returned is the
    identity, so the converter is run on the very path that was returned. *)
Theorem derived_paths_in_posix_form :
  forall tex_file output_format extension : string,
    Posix.as_posix (Posix.as_posix tex_file) = Posix.as_posix tex_file
    /\ Posix.as_posix (compiled_path tex_file output_format)
       = compiled_path tex_file output_format
    /\ Posix.as_posix (svg_path tex_file extension)
       = svg_path tex_file extension.
Proof.
  intros tex_file output_format extension.
  split; [|split]; apply as_posix_idempotent.
Qed.
